(** * X Investment: account ledger and payment settlement (server.js)

    A shallow embedding of the route handlers of [server.js] that keep the
    per-user balance and transaction history and drive simulated payments
    from PENDING to a final status, together with the properties the
    specification states about them.

    - JavaScript Numbers are IEEE 754 binary64 values, modelled by
      [spec_float] at precision 53 and maximal exponent 1024, with the
      operations of [SpecFloat] (round to nearest, ties to even).
    - [users] and [payments] are the two global objects of the server, maps
      from a key to a record.  A payment record is a JavaScript object that
      the settlement timer keeps a reference to, so payment objects live in an
      object store and [payments] maps an id to a location in it.
    - The results of [nanoid], [new Date()], [Math.random()] and of the file
      system are inputs of the handlers.
    - A lookup [users[phone]] or [payments[id]] is a lookup among the own
      properties of the object.  For the few keys that name a member of
      [Object.prototype] ([inherited] below) and are no own property,
      JavaScript finds that member; what is stated of a key that may be
      missing assumes that the key is not one of them. *)

From stdpp Require Import gmap strings list fin_maps.
From Stdlib Require Import ZArith SpecFloat.

Local Open Scope Z_scope.

(** ** Numbers *)

Module Num.

Definition prec : Z := 53.
Definition emax : Z := 1024.

Abbreviation number := spec_float.

Definition add : number -> number -> number := SFadd prec emax.
Definition sub : number -> number -> number := SFsub prec emax.
Definition mul : number -> number -> number := SFmul prec emax.
Definition div : number -> number -> number := SFdiv prec emax.

(** [x < y], [x <= y] and [x > y] of JavaScript: false when an operand is
    NaN. *)
Definition lt (x y : number) : bool := SFltb x y.
Definition le (x y : number) : bool := SFleb x y.
Definition gt (x y : number) : bool := SFltb y x.

Definition isNaN (x : number) : bool :=
  match x with S754_nan => true | _ => false end.

(** The Number of an integer (exact below 2^53). *)
Definition of_Z (z : Z) : number := binary_normalize prec emax z 0 false.

Definition zero : number := S754_zero false.
Definition infinity : number := S754_infinity false.

(** The Number a decimal literal with two decimals denotes: the binary64
    value nearest to [c / 100]. *)
Definition of_cents (c : Z) : number := div (of_Z c) (of_Z 100).

(** ToBoolean on a Number: [+0], [-0] and NaN are falsy. *)
Definition truthy (x : number) : bool :=
  match x with
  | S754_zero _ | S754_nan => false
  | _ => true
  end.

(** [x || 0] on a Number. *)
Definition or_zero (x : number) : number := if truthy x then x else zero.

(** [Math.round]: the integer nearest to [x], ties towards +Infinity;
    NaN, the infinities and the zeros are returned as they are, and a
    result that is zero keeps the sign of [x]. *)
Definition Math_round (x : number) : number :=
  match x with
  | S754_finite s m e =>
      if 0 <=? e then x
      else
        let d := 2 ^ (- e) in
        let n := (2 * cond_Zopp s (Zpos m) + d) `div` (2 * d) in
        match n with
        | Z0 => S754_zero s
        | _ => of_Z n
        end
  | _ => x
  end.

(** The literals of the source. *)
Definition c0 : number := zero.
Definition c100 : number := S754_finite false 7036874417766400 (-46).
Definition c250 : number := S754_finite false 8796093022208000 (-45).
Definition c1_10 : number := S754_finite false 4953959590107546 (-52).

End Num.

Import Num.

#[global] Arguments add : simpl never.
#[global] Arguments sub : simpl never.
#[global] Arguments mul : simpl never.
#[global] Arguments div : simpl never.
#[global] Arguments of_Z : simpl never.
#[global] Arguments Math_round : simpl never.

(** ** Request values

    A field of a parsed JSON body.  The handlers look at an amount in two
    ways only, [!amount] and [Number(amount)], so a non-empty string and an
    object (or array) carry the Number that [Number(...)] converts them to. *)

Inductive jsval :=
  | JUndefined
  | JNull
  | JBool (b : bool)
  | JNumber (n : number)
  | JEmptyString
  | JString (n : number)
  | JObject (n : number).

(** ToBoolean. *)
Definition ToBoolean (v : jsval) : bool :=
  match v with
  | JUndefined | JNull | JEmptyString => false
  | JBool b => b
  | JNumber n => Num.truthy n
  | JString _ | JObject _ => true
  end.

(** [Number(v)]. *)
Definition Number (v : jsval) : number :=
  match v with
  | JUndefined => S754_nan
  | JNull => c0
  | JBool b => if b then of_Z 1 else c0
  | JNumber n => n
  | JEmptyString => c0
  | JString n | JObject n => n
  end.

(** ToBoolean on a string field ([phone], [payTo], [name], [password]); an
    absent field behaves as the empty string. *)
Definition present (s : string) : bool :=
  match s with
  | EmptyString => false
  | _ => true
  end.

(** ** Data model *)

Inductive tx_type := deposit | withdraw | invest.

Inductive meta :=
  | Note (note : string)
  | Invest (principal bonus : number).

Record tx := {
  tx_id : string;
  tx_kind : tx_type;
  tx_amount : number;
  tx_createdAt : string;
  tx_meta : meta
}.

Record user := {
  u_phone : string;
  u_name : string;
  u_salt : string;
  u_passHash : string;
  u_balance : number;
  u_txs : list tx;
  u_picture : option string;
  u_createdAt : string
}.

Inductive status := PENDING | SUCCESS | FAILED | CANCELLED.

Record payment := {
  p_id : string;
  p_phone : string;
  p_payTo : string;
  p_amount : number;
  p_status : status;
  p_createdAt : string
}.

(** A pending [setTimeout] callback of [/api/payment/create]: the closure
    holds the payment object, the user object and the amount [a].  A binding
    of [users] is never removed or replaced once made, so the user object is
    named by its phone. *)
Record timer := {
  t_payment : nat;
  t_user : string;
  t_a : number
}.

(** The server: its global objects, the payment objects, the pending timers
    and the two JSON files. *)
Record server := {
  users : gmap string user;
  payments : gmap string nat;
  objects : list payment;
  timers : list timer;
  sessions : gmap string string;
  USERS_FILE : gmap string user;
  PAYMENTS_FILE : gmap string payment
}.

Definition set_balance (b : number) (u : user) : user :=
  {| u_phone := u_phone u; u_name := u_name u; u_salt := u_salt u;
     u_passHash := u_passHash u; u_balance := b; u_txs := u_txs u;
     u_picture := u_picture u; u_createdAt := u_createdAt u |}.

(** [user.txs.push(t)]. *)
Definition push_tx (t : tx) (u : user) : user :=
  {| u_phone := u_phone u; u_name := u_name u; u_salt := u_salt u;
     u_passHash := u_passHash u; u_balance := u_balance u;
     u_txs := u_txs u ++ [t];
     u_picture := u_picture u; u_createdAt := u_createdAt u |}.

Definition set_status (st : status) (p : payment) : payment :=
  {| p_id := p_id p; p_phone := p_phone p; p_payTo := p_payTo p;
     p_amount := p_amount p; p_status := st; p_createdAt := p_createdAt p |}.

Definition set_users (us : gmap string user) (s : server) : server :=
  {| users := us; payments := payments s; objects := objects s;
     timers := timers s; sessions := sessions s;
     USERS_FILE := USERS_FILE s; PAYMENTS_FILE := PAYMENTS_FILE s |}.

Definition set_payments (ps : gmap string nat) (s : server) : server :=
  {| users := users s; payments := ps; objects := objects s;
     timers := timers s; sessions := sessions s;
     USERS_FILE := USERS_FILE s; PAYMENTS_FILE := PAYMENTS_FILE s |}.

Definition set_objects (os : list payment) (s : server) : server :=
  {| users := users s; payments := payments s; objects := os;
     timers := timers s; sessions := sessions s;
     USERS_FILE := USERS_FILE s; PAYMENTS_FILE := PAYMENTS_FILE s |}.

Definition set_timers (ts : list timer) (s : server) : server :=
  {| users := users s; payments := payments s; objects := objects s;
     timers := ts; sessions := sessions s;
     USERS_FILE := USERS_FILE s; PAYMENTS_FILE := PAYMENTS_FILE s |}.

Definition set_sessions (ss : gmap string string) (s : server) : server :=
  {| users := users s; payments := payments s; objects := objects s;
     timers := timers s; sessions := ss;
     USERS_FILE := USERS_FILE s; PAYMENTS_FILE := PAYMENTS_FILE s |}.

Definition set_USERS_FILE (us : gmap string user) (s : server) : server :=
  {| users := users s; payments := payments s; objects := objects s;
     timers := timers s; sessions := sessions s;
     USERS_FILE := us; PAYMENTS_FILE := PAYMENTS_FILE s |}.

Definition set_PAYMENTS_FILE (ps : gmap string payment) (s : server) : server :=
  {| users := users s; payments := payments s; objects := objects s;
     timers := timers s; sessions := sessions s;
     USERS_FILE := USERS_FILE s; PAYMENTS_FILE := ps |}.

(** The payment stored under an id. *)
Definition payment_of (s : server) (id : string) : option payment :=
  payments s !! id ≫= λ l, objects s !! l.

(** ** Persistence *)

(** What [saveJson(PAYMENTS_FILE, payments)] writes: every id with the
    current content of its object. *)
Definition payments_json (s : server) : gmap string payment :=
  omap (λ l, objects s !! l) (payments s).

(** The file system: both writes succeed, or [fs.writeJsonSync] throws on
    the first or on the second file. *)
Inductive disk := Writable | UsersFails | PaymentsFails.

(** [saveAll]: the state after it, and whether it returned ([true]) or
    threw ([false]). *)
Definition saveAll (d : disk) (s : server) : server * bool :=
  match d with
  | UsersFails => (s, false)
  | PaymentsFails => (set_USERS_FILE (users s) s, false)
  | Writable =>
      (set_PAYMENTS_FILE (payments_json s) (set_USERS_FILE (users s) s), true)
  end.

(** [loadJson] at start-up when the data directory is empty. *)
Definition start : server :=
  {| users := ∅; payments := ∅; objects := []; timers := [];
     sessions := ∅; USERS_FILE := ∅; PAYMENTS_FILE := ∅ |}.

(** ** Responses *)

Inductive response :=
  | Error (code : nat) (error : string)
  | Ok
  | OkBalance (balance : number)
  | OkPayment (paymentId : string)
  | Token (token : string)
  | Status (st : status) (note : option string)
  | Thrown.

(** ** Route handlers

    Every handler takes the file system's behaviour, the request fields and
    the values drawn while it runs ([nanoid], [new Date().toISOString()]),
    and returns the server after it with the response.  [Thrown] is the
    exception of [saveAll] leaving the handler. *)

(** [POST /api/signup]; [salt] and [hash] are the result of [pbkdf2Hash]. *)
Definition api_signup (d : disk) (name phone password : string)
    (salt hash now token : string) (s : server) : server * response :=
  if negb (present name) || negb (present phone) || negb (present password)
  then (s, Error 400 "missing fields")
  else match users s !! phone with
  | Some _ => (s, Error 400 "account exists")
  | None =>
      let user :=
        {| u_phone := phone; u_name := name; u_salt := salt;
           u_passHash := hash; u_balance := c0; u_txs := [];
           u_picture := None; u_createdAt := now |} in
      let s1 := set_users (<[phone := user]> (users s)) s in
      match saveAll d s1 with
      | (s2, false) => (s2, Thrown)
      | (s2, true) =>
          (set_sessions (<[token := phone]> (sessions s2)) s2, Token token)
      end
  end.

(** [POST /api/deposit]. *)
Definition api_deposit (d : disk) (phone : string) (amount : jsval)
    (nid now : string) (s : server) : server * response :=
  if negb (present phone) || negb (ToBoolean amount)
  then (s, Error 400 "missing")
  else match users s !! phone with
  | None => (s, Error 404 "no user")
  | Some user =>
      let a := Number amount in
      if isNaN a || le a c0 then (s, Error 400 "invalid amount")
      else
        let user := set_balance (add (or_zero (u_balance user)) a) user in
        let t :=
          {| tx_id := "tx_" +:+ nid; tx_kind := deposit; tx_amount := a;
             tx_createdAt := now; tx_meta := Note "Manual deposit" |} in
        let user := push_tx t user in
        let s1 := set_users (<[phone := user]> (users s)) s in
        match saveAll d s1 with
        | (s2, false) => (s2, Thrown)
        | (s2, true) => (s2, OkBalance (u_balance user))
        end
  end.

(** [POST /api/withdraw]. *)
Definition api_withdraw (d : disk) (phone : string) (amount : jsval)
    (nid now : string) (s : server) : server * response :=
  if negb (present phone) || negb (ToBoolean amount)
  then (s, Error 400 "missing")
  else match users s !! phone with
  | None => (s, Error 404 "no user")
  | Some user =>
      let a := Number amount in
      if isNaN a || le a c0 then (s, Error 400 "invalid amount")
      else if gt a (u_balance user)
      then (s, Error 400 "insufficient balance")
      else
        let user := set_balance (sub (or_zero (u_balance user)) a) user in
        let t :=
          {| tx_id := "tx_" +:+ nid; tx_kind := withdraw; tx_amount := a;
             tx_createdAt := now; tx_meta := Note "Manual withdrawal" |} in
        let user := push_tx t user in
        let s1 := set_users (<[phone := user]> (users s)) s in
        match saveAll d s1 with
        | (s2, false) => (s2, Thrown)
        | (s2, true) => (s2, OkBalance (u_balance user))
        end
  end.

(** [POST /api/payment/create]: the payment object is allocated, stored
    under [id] and saved; the timer is set after [saveAll] has returned. *)
Definition api_payment_create (d : disk) (phone : string) (amount : jsval)
    (payTo : string) (id now : string) (s : server) : server * response :=
  if negb (present phone) || negb (ToBoolean amount) || negb (present payTo)
  then (s, Error 400 "missing")
  else match users s !! phone with
  | None => (s, Error 404 "no user")
  | Some user =>
      let a := Number amount in
      if isNaN a || lt a c250
      then (s, Error 400 "invalid amount, minimum 250")
      else
        let payment :=
          {| p_id := id; p_phone := phone; p_payTo := payTo; p_amount := a;
             p_status := PENDING; p_createdAt := now |} in
        let l := length (objects s) in
        let s1 :=
          set_payments (<[id := l]> (payments s))
            (set_objects (objects s ++ [payment]) s) in
        match saveAll d s1 with
        | (s2, false) => (s2, Thrown)
        | (s2, true) =>
            let t := {| t_payment := l; t_user := phone; t_a := a |} in
            (set_timers (timers s2 ++ [t]) s2, OkPayment id)
        end
  end.

(** The amount the callback credits: [Math.round((a * 1.10) * 100) / 100]. *)
Definition credited (a : number) : number :=
  div (Math_round (mul (mul a c1_10) c100)) c100.

(** The [setTimeout] callback of [/api/payment/create], run for the pending
    timer number [k]; [ok] is [Math.random() < 0.85].  It returns the server
    after it and whether it returned ([true]) or [saveAll] threw ([false]).
    A timer runs once: it leaves the pending timers when it expires. *)
Definition settlement_callback (d : disk) (k : nat) (ok : bool)
    (nid now : string) (s : server) : server * bool :=
  match timers s !! k with
  | None => (s, true)
  | Some t =>
      let s0 := set_timers (delete k (timers s)) s in
      let a := t_a t in
      if ok then
        let s1 :=
          set_objects (alter (set_status SUCCESS) (t_payment t) (objects s0))
            s0 in
        let c := credited a in
        let tx :=
          {| tx_id := "tx_" +:+ nid; tx_kind := invest; tx_amount := c;
             tx_createdAt := now; tx_meta := Invest a (sub c a) |} in
        let credit (u : user) :=
          push_tx tx (set_balance (add (or_zero (u_balance u)) c) u) in
        saveAll d (set_users (alter credit (t_user t) (users s1)) s1)
      else
        saveAll d
          (set_objects (alter (set_status FAILED) (t_payment t) (objects s0))
             s0)
  end.

(** [GET /api/payment/status/:id]. *)
Definition api_payment_status (id : string) (s : server) : response :=
  match payment_of s id with
  | None => Error 404 "not found"
  | Some p =>
      Status (p_status p)
        (match p_status p with
         | SUCCESS => Some "Payment received and investment credited."
         | _ => None
         end)
  end.

(** [POST /api/payment/cancel/:id].  A location with no object behind it
    does not occur in a well-formed server ([wf] below). *)
Definition api_payment_cancel (d : disk) (id : string) (s : server)
    : server * response :=
  match payments s !! id with
  | None => (s, Error 404 "not found")
  | Some l =>
      match objects s !! l with
      | None => (s, Error 404 "not found")
      | Some p =>
          match p_status p with
          | PENDING =>
              let s1 :=
                set_objects (alter (set_status CANCELLED) l (objects s)) s in
              match saveAll d s1 with
              | (s2, false) => (s2, Thrown)
              | (s2, true) => (s2, Ok)
              end
          | _ => (s, Error 400 "cannot cancel")
          end
      end
  end.

(** ** Runs of the server

    What reaches the server: requests, and expiries of pending timers. *)

Inductive event :=
  | Signup (name phone password salt hash now token : string)
  | Deposit (phone : string) (amount : jsval) (nid now : string)
  | Withdraw (phone : string) (amount : jsval) (nid now : string)
  | CreatePayment (phone : string) (amount : jsval) (payTo id now : string)
  | CancelPayment (id : string)
  | Expire (k : nat) (ok : bool) (nid now : string).

Definition handle (d : disk) (e : event) (s : server) : server :=
  match e with
  | Signup name phone password salt hash now token =>
      (api_signup d name phone password salt hash now token s).1
  | Deposit phone amount nid now => (api_deposit d phone amount nid now s).1
  | Withdraw phone amount nid now => (api_withdraw d phone amount nid now s).1
  | CreatePayment phone amount payTo id now =>
      (api_payment_create d phone amount payTo id now s).1
  | CancelPayment id => (api_payment_cancel d id s).1
  | Expire k ok nid now => (settlement_callback d k ok nid now s).1
  end.

(** A run on a file system that never fails. *)
Definition run (es : list event) (s : server) : server :=
  foldl (λ s e, handle Writable e s) s es.

(** A timer holds an allocated payment object, made for its amount and its
    user, and its user is in [users]. *)
Definition timer_ok (s : server) (t : timer) : Prop :=
  (∃ p, objects s !! t_payment t = Some p ∧
        p_amount p = t_a t ∧ p_phone p = t_user t) ∧
  is_Some (users s !! t_user t).

(** Every location held by [payments] is allocated, and every pending timer
    is as above. *)
Definition wf (s : server) : Prop :=
  (∀ id l, payments s !! id = Some l → is_Some (objects s !! l)) ∧
  Forall (timer_ok s) (timers s).

(** ** The specification's vocabulary *)

(** The signed amount of a transaction: deposits and settlement credits count
    positively, withdrawals negatively. *)
Definition signed (t : tx) : number :=
  match tx_kind t with
  | deposit | invest => tx_amount t
  | withdraw => SFopp (tx_amount t)
  end.

(** The sum of the signed amounts of a history, taken in order from zero. *)
Definition ledger_sum (ts : list tx) : number :=
  foldl (λ acc t, add acc (signed t)) c0 ts.

Definition negative (x : number) : bool := lt x c0.

(** An account whose balance is the sum of its history. *)
Definition balanced (u : user) : Prop := u_balance u = ledger_sum (u_txs u).

Definition all_balanced (s : server) : Prop :=
  ∀ phone u, users s !! phone = Some u → balanced u.

(** No balance is NaN or [-0]: [balance || 0] is the balance. *)
Definition steady (s : server) : Prop :=
  ∀ phone u, users s !! phone = Some u → or_zero (u_balance u) = u_balance u.

(** The ledger operations: what one request or expiry can do to [users].
    It opens an account with balance 0 and no history, or it adds an amount
    to a balance (deposit, settlement credit), or it subtracts one
    (withdraw), recording the transaction. *)
Inductive ledger_change (us : gmap string user) : gmap string user → Prop :=
  | ledger_same : ledger_change us us
  | ledger_open phone u' :
      us !! phone = None → u_balance u' = c0 → u_txs u' = [] →
      ledger_change us (<[phone := u']> us)
  | ledger_credit phone u t :
      us !! phone = Some u → tx_kind t ≠ withdraw →
      ledger_change us
        (<[phone :=
             push_tx t
               (set_balance (add (or_zero (u_balance u)) (tx_amount t)) u)]>
           us)
  | ledger_debit phone u t :
      us !! phone = Some u → tx_kind t = withdraw →
      ledger_change us
        (<[phone :=
             push_tx t
               (set_balance (sub (or_zero (u_balance u)) (tx_amount t)) u)]>
           us).

(** A positive finite Number. *)
Definition positive_finite (x : number) : bool :=
  match x with
  | S754_finite false _ _ => true
  | _ => false
  end.

Definition terminal (st : status) : bool :=
  match st with
  | PENDING => false
  | _ => true
  end.

(** Half-up rounding to two decimals of [principal * 1.10], on decimal
    amounts counted in cents: [floor (principal * 110 / 100 + 1/2)]. *)
Definition round2_bonus_cents (principal : Z) : Z :=
  (principal * 110 + 50) `div` 100.

(** What a handler keeps in memory of the ledger and of the payments. *)
Definition memory (s : server)
    : gmap string user * gmap string nat * list payment :=
  (users s, payments s, objects s).

(** A response that reports a rejected request. *)
Definition rejected (r : response) : bool :=
  match r with
  | Error _ _ => true
  | _ => false
  end.



(** ** A session used in the examples *)

Definition ann : server :=
  (api_signup Writable "Ann" "0700" "secret" "5a17" "c0ffee"
     "2024-01-01T08:00:00.000Z" "tok" start).1.

Definition ann_user : user :=
  {| u_phone := "0700"; u_name := "Ann"; u_salt := "5a17";
     u_passHash := "c0ffee"; u_balance := c0; u_txs := [];
     u_picture := None; u_createdAt := "2024-01-01T08:00:00.000Z" |}.

Definition balance_of (s : server) (phone : string) : option number :=
  u_balance <$> users s !! phone.

Definition status_of (s : server) (id : string) : option status :=
  p_status <$> payment_of s id.

(** ** Accounts and sessions: the other routes

    [crypto.pbkdf2Sync(password, salt, 200000, 64, 'sha256').toString('hex')]
    is a function of the password and the salt, taken as a parameter. *)

Section Credentials.

Variable pbkdf2Sync : string → string → string.

(** [pbkdf2Hash(password, salt = null)]; [random] is
    [crypto.randomBytes(16).toString('hex')], used when no salt is given. *)
Definition pbkdf2Hash (password : string) (salt : option string)
    (random : string) : string * string :=
  let salt :=
    match salt with
    | Some given => if present given then given else random
    | None => random
    end in
  (salt, pbkdf2Sync password salt).

(** [verifyPassword]. *)
Definition verifyPassword (password salt hash : string) : bool :=
  String.eqb (pbkdf2Sync password salt) hash.

End Credentials.

(** The answers of the account routes. *)
Inductive reply :=
  | Refused (code : nat) (error : string)
  | LoggedIn (token name phone : string) (balance : number)
  | UserView (name phone : string) (balance : number) (txs : list tx)
      (picture : option string)
  | Done
  | Raised.

(** [user.picture = picture]. *)
Definition set_picture (picture : string) (u : user) : user :=
  {| u_phone := u_phone u; u_name := u_name u; u_salt := u_salt u;
     u_passHash := u_passHash u; u_balance := u_balance u;
     u_txs := u_txs u; u_picture := Some picture;
     u_createdAt := u_createdAt u |}.

(** [POST /api/login]; [token] is [nanoid(24)]. *)
Definition api_login (pbkdf2Sync : string → string → string)
    (phone password token : string) (s : server) : server * reply :=
  if negb (present phone) || negb (present password)
  then (s, Refused 400 "missing fields")
  else match users s !! phone with
  | None => (s, Refused 404 "account not found")
  | Some user =>
      if negb (verifyPassword pbkdf2Sync password (u_salt user)
                 (u_passHash user))
      then (s, Refused 403 "invalid password")
      else
        (set_sessions (<[token := phone]> (sessions s)) s,
         LoggedIn token (u_name user) (u_phone user) (u_balance user))
  end.

(** [GET /api/user/:phone]. *)
Definition api_user (phone : string) (s : server) : reply :=
  match users s !! phone with
  | None => Refused 404 "not found"
  | Some user =>
      UserView (u_name user) (u_phone user) (u_balance user) (u_txs user)
        (u_picture user)
  end.

(** [POST /api/user/picture]. *)
Definition api_user_picture (d : disk) (phone picture : string) (s : server)
    : server * reply :=
  if negb (present phone) || negb (present picture)
  then (s, Refused 400 "missing fields")
  else match users s !! phone with
  | None => (s, Refused 404 "no user")
  | Some user =>
      let s1 := set_users (<[phone := set_picture picture user]> (users s)) s in
      match saveAll d s1 with
      | (s2, false) => (s2, Raised)
      | (s2, true) => (s2, Done)
      end
  end.

(** [POST /api/logout]: every token of [sessions] whose phone is the given
    one is deleted. *)
Definition api_logout (phone : string) (s : server) : server * reply :=
  (set_sessions (filter (λ tp, tp.2 ≠ phone) (sessions s)) s, Done).

(** Everything that reaches the server: the events above and the requests of
    the account routes. *)
Inductive action :=
  | Core (e : event)
  | Login (phone password token : string)
  | GetUser (phone : string)
  | Picture (phone picture : string)
  | Logout (phone : string).

Definition perform (pbkdf2Sync : string → string → string) (d : disk)
    (a : action) (s : server) : server :=
  match a with
  | Core e => handle d e s
  | Login phone password token =>
      (api_login pbkdf2Sync phone password token s).1
  | GetUser _ => s
  | Picture phone picture => (api_user_picture d phone picture s).1
  | Logout phone => (api_logout phone s).1
  end.

(** A run: each action with what the disk does while it is served. *)
Definition play (pbkdf2Sync : string → string → string)
    (ds : list (disk * action)) (s : server) : server :=
  foldl (λ s da, perform pbkdf2Sync da.1 da.2 s) s ds.

Definition is_expiry (a : action) : bool :=
  match a with
  | Core (Expire _ _ _ _) => true
  | _ => false
  end.

(** ** What the routes keep *)

(** What signup fixes of an account. *)
Definition same_identity (u u' : user) : Prop :=
  u_phone u' = u_phone u ∧ u_name u' = u_name u ∧ u_salt u' = u_salt u ∧
  u_passHash u' = u_passHash u ∧ u_createdAt u' = u_createdAt u.

(** Every session is the session of an account. *)
Definition sessions_known (s : server) : Prop :=
  ∀ token phone, sessions s !! token = Some phone → is_Some (users s !! phone).

(** Every account is stored under its phone. *)
Definition keyed (s : server) : Prop :=
  ∀ phone u, users s !! phone = Some u → u_phone u = phone.

(** No two pending timers hold the same payment object. *)
Definition one_timer_each (s : server) : Prop :=
  NoDup (t_payment <$> timers s).

(** A stand-in for [pbkdf2Sync] in the examples. *)
Definition toy_pbkdf2 (password salt : string) : string := salt +:+ password.

(** A login that was granted. *)
Definition granted (r : reply) : bool :=
  match r with
  | LoggedIn _ _ _ _ => true
  | _ => false
  end.

(** A run used in the examples: Ann signs up, creates two payments, cancels
    the first, deposits 100 while the disk fails, logs in and uploads a
    picture. *)
Definition ann_run : list (disk * action) :=
  [(Writable,
    Core (Signup "Ann" "0700" "secret" "5a17" (toy_pbkdf2 "secret" "5a17")
            "2024-01-01T08:00:00.000Z" "tok"));
   (Writable,
    Core (CreatePayment "0700" (JNumber c250) "till" "pay1"
            "2024-01-01T09:00:00.000Z"));
   (Writable,
    Core (CreatePayment "0700" (JNumber (of_Z 1000)) "till" "pay2"
            "2024-01-01T09:00:01.000Z"));
   (Writable, Core (CancelPayment "pay1"));
   (UsersFails,
    Core (Deposit "0700" (JNumber c100) "n1" "2024-01-01T09:00:02.000Z"));
   (Writable, Login "0700" "secret" "tok2");
   (PaymentsFails, Picture "0700" "data:image/png;base64,AAAA")].

Definition ann_server : server := play toy_pbkdf2 ann_run start.

(** What Ann does next in the examples: a withdrawal of 30, and the expiry
    of her first timer with a successful draw. *)
Definition ann_next : list (disk * action) :=
  [(Writable,
    Core (Withdraw "0700" (JNumber (of_Z 30)) "n2"
            "2024-01-01T09:00:03.000Z"));
   (PaymentsFails, Core (Expire 0 true "n3" "2024-01-01T09:00:10.000Z"))].

(** The property names of [Object.prototype]. *)
Definition inherited (key : string) : bool :=
  existsb (String.eqb key)
    ["constructor"; "__defineGetter__"; "__defineSetter__";
     "hasOwnProperty"; "__lookupGetter__"; "__lookupSetter__";
     "isPrototypeOf"; "propertyIsEnumerable"; "toString"; "valueOf";
     "__proto__"; "toLocaleString"].

(** An action none of whose keys (phone, payment id) is the name of a member
    of [Object.prototype]. *)
Definition plain (a : action) : bool :=
  match a with
  | Core (Signup _ phone _ _ _ _ _) => negb (inherited phone)
  | Core (Deposit phone _ _ _) => negb (inherited phone)
  | Core (Withdraw phone _ _ _) => negb (inherited phone)
  | Core (CreatePayment phone _ _ id _) =>
      negb (inherited phone) && negb (inherited id)
  | Core (CancelPayment id) => negb (inherited id)
  | Core (Expire _ _ _ _) => true
  | Login phone _ _ => negb (inherited phone)
  | GetUser phone => negb (inherited phone)
  | Picture phone _ => negb (inherited phone)
  | Logout phone => negb (inherited phone)
  end.

Definition plain_run (ds : list (disk * action)) : bool :=
  forallb (λ da, plain da.2) ds.

(** Ann's account after a deposit of "Infinity"; and after that deposit, a
    withdrawal of "Infinity" and a withdrawal of 5. *)
Definition ann_infinite : server :=
  run [Deposit "0700" (JString infinity) "n1" "2024-01-01T09:00:00.000Z"]
    ann.

Definition ann_overdrawn : server :=
  run [Withdraw "0700" (JString infinity) "n2" "2024-01-01T09:01:00.000Z";
       Withdraw "0700" (JNumber (of_Z 5)) "n3" "2024-01-01T09:02:00.000Z"]
    ann_infinite.

(** * Properties *)

(** ** Numbers *)

Section Numbers.

Implicit Types x y a b : number.

(** The amount test of deposit and withdraw, [isNaN(a) || a <= 0], lets
    through the positive finite Numbers and +Infinity, and nothing else. *)
Lemma amount_test_false a :
  isNaN a || le a c0 = false ↔
  positive_finite a = true ∨ a = infinity.
Proof.
  destruct a as [[]|[]| |[] m e]; cbn; split; intros H;
    try discriminate; try (destruct H; discriminate); auto.
Qed.

Lemma amount_test_finite a :
  a ≠ infinity → isNaN a || le a c0 = negb (positive_finite a).
Proof.
  intros Ha. destruct a as [[]|[]| |[] m e]; cbn; try reflexivity.
  now destruct Ha.
Qed.

(** An amount above a balance that is not negative passes the amount
    test. *)
Lemma gt_nonneg_amount a b :
  le c0 b = true → gt a b = true → isNaN a || le a c0 = false.
Proof.
  destruct b as [[]|[]| |[] mb eb]; cbn; try discriminate;
    destruct a as [[]|[]| |[] ma ea]; cbn; intros _ H;
    try discriminate; reflexivity.
Qed.

Lemma gt_nonneg_truthy a b :
  le c0 b = true → gt a b = true → Num.truthy a = true.
Proof.
  destruct b as [[]|[]| |[] mb eb]; cbn; try discriminate;
    destruct a as [[]|[]| |[] ma ea]; cbn; intros _ H;
    try discriminate; reflexivity.
Qed.

Lemma compare_cont_refl (m : positive) : Pos.compare_cont Eq m m = Eq.
Proof. induction m; cbn; auto. Qed.

(** [x > x] is false. *)
Lemma gt_irrefl x : gt x x = false.
Proof.
  destruct x as [[]|[]| |[] m e]; cbn; try reflexivity;
    rewrite Z.compare_refl, compare_cont_refl; reflexivity.
Qed.

(** A finite Number minus itself is [+0]. *)
Lemma sub_diag s m e : sub (S754_finite s m e) (S754_finite s m e) = zero.
Proof.
  unfold sub, SFsub. cbv zeta. rewrite Z.sub_diag. reflexivity.
Qed.

(** The Number of a request value that is positive and finite: the value
    is truthy. *)
Lemma positive_finite_truthy (v : jsval) :
  positive_finite (Number v) = true → ToBoolean v = true.
Proof.
  destruct v as [| |[]|n| |n|n]; cbn; try discriminate; try reflexivity.
  destruct n as [[]|[]| |[] m e]; cbn; try discriminate; reflexivity.
Qed.

(** A falsy request value converts to a zero or to NaN. *)
Lemma falsy_not_positive (v : jsval) :
  ToBoolean v = false → isNaN (Number v) || le (Number v) c0 = true.
Proof.
  destruct v as [| |[]|n| |n|n]; cbn; try discriminate; try reflexivity.
  destruct n as [[]|[]| |[] m e]; cbn; try discriminate; reflexivity.
Qed.

(** [SFcompare] read from right to left. *)
Lemma compare_antisym x y c :
  SFcompare x y = Some c → SFcompare y x = Some (CompOpp c).
Proof.
  destruct x as [[]|[]| |[] mx ex], y as [[]|[]| |[] my ey]; cbn;
    intros [= <-]; try reflexivity;
    rewrite (Z.compare_antisym ex ey);
    destruct (ex ?= ey); cbn; try reflexivity;
    rewrite (Pos.compare_cont_antisym mx my Eq); cbn;
    destruct (Pos.compare_cont Eq mx my); reflexivity.
Qed.

(** An amount at or above the minimum passes the test of
    [/api/payment/create], and is truthy. *)
Lemma ge_minimum_amount a :
  le c250 a = true → isNaN a || lt a c250 = false.
Proof.
  unfold le, lt, SFleb, SFltb. intros H.
  destruct (SFcompare c250 a) as [c|] eqn:E; [|discriminate].
  rewrite (compare_antisym _ _ _ E).
  destruct a; try discriminate; destruct c; try discriminate; reflexivity.
Qed.

Lemma ge_minimum_truthy (v : jsval) :
  le c250 (Number v) = true → ToBoolean v = true.
Proof.
  destruct v as [| |[]|n| |n|n]; cbn; try discriminate; try reflexivity.
  destruct n as [[]|[]| |[] m e]; cbn; try discriminate; reflexivity.
Qed.

(** The literals are the Numbers that [100], [250], [250.00] and [1.10]
    denote. *)
Example literals :
  of_Z 100 = c100 ∧ of_Z 250 = c250 ∧ of_cents 25000 = c250 ∧
  div (of_Z 11) (of_Z 10) = c1_10.
Proof. repeat split. Qed.

(** [Math.round] on 2.5, -2.5, -0.5, 0.25 and -0.75. *)
Example Math_round_ties :
  Math_round (div (of_Z 5) (of_Z 2)) = of_Z 3 ∧
  Math_round (div (of_Z (-5)) (of_Z 2)) = of_Z (-2) ∧
  Math_round (div (of_Z (-1)) (of_Z 2)) = S754_zero true ∧
  Math_round (div (of_Z 1) (of_Z 4)) = S754_zero false ∧
  Math_round (div (of_Z (-3)) (of_Z 4)) = of_Z (-1).
Proof. repeat split. Qed.

(** Subtracting is adding the opposite. *)
Lemma sub_add_opp x y : sub x y = add x (SFopp y).
Proof.
  destruct x as [[]|[]| |sx mx ex], y as [[]|[]| |sy my ey]; try reflexivity.
  unfold sub, add, SFsub, SFadd, SFopp. f_equal.
  destruct sy; cbn; lia.
Qed.

End Numbers.

(** ** Well-formed servers

    The handlers never meet a dangling payment location or a timer whose
    user is gone: both are excluded in every server reached from [start]. *)

Lemma wf_start : wf start.
Proof. split; [intros id l H; cbn in H; now rewrite lookup_empty in H | constructor]. Qed.

Lemma wf_saveAll d s : wf s → wf (saveAll d s).1.
Proof. destruct d; exact id. Qed.

Lemma wf_insert_user s phone u :
  wf s → wf (set_users (<[phone := u]> (users s)) s).
Proof.
  intros [Hp Ht]. split; [exact Hp|].
  eapply Forall_impl; [exact Ht|]. intros t [Hobj Hus]. split; [exact Hobj|].
  cbn. destruct (decide (phone = t_user t)) as [Heq|Hne].
  - rewrite Heq, lookup_insert_eq. eauto.
  - now rewrite lookup_insert_ne.
Qed.

Lemma wf_alter_user s f phone :
  wf s → wf (set_users (alter f phone (users s)) s).
Proof.
  intros [Hp Ht]. split; [exact Hp|].
  eapply Forall_impl; [exact Ht|]. intros t [Hobj Hus]. split; [exact Hobj|].
  cbn. destruct (decide (phone = t_user t)) as [Heq|Hne].
  - rewrite Heq, lookup_alter_eq. destruct Hus as [u ->]. cbn. eauto.
  - now rewrite lookup_alter_ne.
Qed.

Lemma lookup_alter_status st l l' (os : list payment) p :
  os !! l' = Some p →
  ∃ q, alter (set_status st) l os !! l' = Some q ∧
       p_amount q = p_amount p ∧ p_phone q = p_phone p.
Proof.
  intros Hp. destruct (decide (l = l')) as [Heq|Hne].
  - rewrite Heq, list_lookup_alter_eq, Hp. cbn. eauto.
  - rewrite list_lookup_alter_ne by done. eauto.
Qed.

Lemma wf_alter_status s st l :
  wf s → wf (set_objects (alter (set_status st) l (objects s)) s).
Proof.
  intros [Hp Ht]. split.
  - intros id l' Hl. destruct (Hp id l' Hl) as [p Hp'].
    destruct (lookup_alter_status st l l' _ _ Hp') as (q & Hq & _).
    cbn. eauto.
  - eapply Forall_impl; [exact Ht|].
    intros t [(p & Hobj & Ha & Hph) Hus]. split; [|exact Hus].
    destruct (lookup_alter_status st l _ _ _ Hobj) as (q & Hq & Ha' & Hph').
    exists q. cbn. repeat split; congruence.
Qed.

Lemma wf_delete_timer s k :
  wf s → wf (set_timers (delete k (timers s)) s).
Proof.
  intros [Hp Ht]. split; [exact Hp|]. now apply Forall_delete.
Qed.

Lemma wf_create s id p u :
  users s !! p_phone p = Some u →
  wf s →
  let s1 :=
    set_payments (<[id := length (objects s)]> (payments s))
      (set_objects (objects s ++ [p]) s) in
  wf s1 ∧
  timer_ok s1 {| t_payment := length (objects s); t_user := p_phone p;
                 t_a := p_amount p |}.
Proof.
  intros Hu [Hp Ht]. cbv zeta. repeat split.
  - intros id' l. cbn. destruct (decide (id = id')) as [Heq|Hne].
    + rewrite Heq, lookup_insert_eq. intros [= <-].
      rewrite list_lookup_middle by done. eauto.
    + rewrite lookup_insert_ne by done. intros Hl.
      destruct (Hp id' l Hl) as [q Hq]. exists q.
      now apply lookup_app_l_Some.
  - eapply Forall_impl; [exact Ht|].
    intros t [(q & Hobj & Ha & Hph) Hus]. split; [|exact Hus].
    exists q. cbn. split; [now apply lookup_app_l_Some | done].
  - exists p. cbn. now rewrite list_lookup_middle.
  - cbn. eauto.
Qed.

Lemma wf_add_timer s t :
  timer_ok s t → wf s → wf (set_timers (timers s ++ [t]) s).
Proof.
  intros Hok [Hp Ht]. split; [exact Hp|].
  apply Forall_app. split; [exact Ht | now constructor].
Qed.

Lemma timer_ok_saveAll d s t : timer_ok s t → timer_ok (saveAll d s).1 t.
Proof. destruct d; exact id. Qed.

(** Every request and every expiry keeps the server well formed, whatever
    the disk does. *)
Lemma wf_handle d e s : wf s → wf (handle d e s).
Proof.
  intros Hwf. destruct e; cbn.
  - unfold api_signup.
    destruct (negb _ || negb _ || negb _); [exact Hwf|].
    destruct (users s !! phone); [exact Hwf|].
    pose proof (wf_saveAll d _ (wf_insert_user s phone
       {| u_phone := phone; u_name := name; u_salt := salt;
          u_passHash := hash; u_balance := c0; u_txs := [];
          u_picture := None; u_createdAt := now |} Hwf)) as H.
    destruct (saveAll d _) as [s2 []]; exact H.
  - unfold api_deposit.
    destruct (negb _ || negb _); [exact Hwf|].
    destruct (users s !! phone); [|exact Hwf].
    destruct (isNaN _ || le _ _); [exact Hwf|].
    match goal with |- context [saveAll d (set_users (<[phone := ?v]> _) s)] =>
      pose proof (wf_saveAll d _ (wf_insert_user s phone v Hwf)) as H end.
    destruct (saveAll d _) as [s2 []]; exact H.
  - unfold api_withdraw.
    destruct (negb _ || negb _); [exact Hwf|].
    destruct (users s !! phone); [|exact Hwf].
    destruct (isNaN _ || le _ _); [exact Hwf|].
    destruct (gt _ _); [exact Hwf|].
    match goal with |- context [saveAll d (set_users (<[phone := ?v]> _) s)] =>
      pose proof (wf_saveAll d _ (wf_insert_user s phone v Hwf)) as H end.
    destruct (saveAll d _) as [s2 []]; exact H.
  - unfold api_payment_create.
    destruct (negb _ || negb _ || negb _); [exact Hwf|].
    destruct (users s !! phone) as [u|] eqn:Hu; [|exact Hwf].
    destruct (isNaN _ || lt _ _); [exact Hwf|].
    destruct (wf_create s id
                {| p_id := id; p_phone := phone; p_payTo := payTo;
                   p_amount := Number amount; p_status := PENDING;
                   p_createdAt := now |} u Hu Hwf) as [H1 H2].
    cbn in H1, H2.
    apply (wf_saveAll d) in H1. apply (timer_ok_saveAll d) in H2.
    destruct (saveAll d _) as [s2 []]; cbn in *; [|exact H1].
    now apply wf_add_timer.
  - unfold api_payment_cancel.
    destruct (payments s !! id); [|exact Hwf].
    destruct (objects s !! n); [|exact Hwf].
    destruct (p_status p); try exact Hwf.
    pose proof (wf_saveAll d _ (wf_alter_status s CANCELLED n Hwf)) as H.
    destruct (saveAll d _) as [s2 []]; exact H.
  - unfold settlement_callback.
    destruct (timers s !! k); [|exact Hwf].
    destruct ok; apply wf_saveAll.
    + apply wf_alter_user, wf_alter_status, wf_delete_timer, Hwf.
    + apply wf_alter_status, wf_delete_timer, Hwf.
Qed.

Lemma wf_run es s : wf s → wf (run es s).
Proof.
  revert s. induction es as [|e es IH]; intros s Hwf; [exact Hwf|].
  cbn. apply IH. now apply wf_handle.
Qed.

(** ** Settlement after a cancellation *)

(** The callback writes its outcome over whatever status the payment
    has. *)
Lemma settlement_ignores_status d k ok nid now s t p :
  timers s !! k = Some t →
  objects s !! t_payment t = Some p →
  objects (settlement_callback d k ok nid now s).1 !! t_payment t
  = Some (set_status (if ok then SUCCESS else FAILED) p).
Proof.
  intros Hk Hp. unfold settlement_callback. rewrite Hk.
  destruct ok, d; cbn; now rewrite list_lookup_alter_eq, Hp.
Qed.

(** C1 (the code departs from the claim).  The settlement callback sets the
    outcome without looking at the payment's status: a payment that was
    created and cancelled is CANCELLED, and when its timer expires with a
    successful draw it becomes SUCCESS and the account is credited. *)
Theorem settlement_overrides_cancel :
  let s1 :=
    run [CreatePayment "0700" (JNumber c250) "till" "pay1"
           "2024-01-01T09:00:00.000Z";
         CancelPayment "pay1"] ann in
  let s2 :=
    (settlement_callback Writable 0 true "n1" "2024-01-01T09:00:10.000Z"
       s1).1 in
  status_of s1 "pay1" = Some CANCELLED ∧
  terminal CANCELLED = true ∧
  balance_of s1 "0700" = Some c0 ∧
  status_of s2 "pay1" = Some SUCCESS ∧
  balance_of s2 "0700" = Some (of_Z 275).
Proof. vm_compute. auto 6. Qed.

(** ** The balance and the history *)

Lemma ledger_sum_snoc ts t :
  ledger_sum (ts ++ [t]) = add (ledger_sum ts) (signed t).
Proof. unfold ledger_sum. now rewrite foldl_app. Qed.

Lemma saveAll_users d s : users (saveAll d s).1 = users s.
Proof. now destruct d. Qed.

Ltac saved d :=
  match goal with
  | |- context [saveAll d ?x] =>
      let H := fresh "Hs" in
      pose proof (saveAll_users d x) as H;
      destruct (saveAll d x) as [? []]; cbn in H |- *; rewrite H
  end.

(** Whatever the disk does, a request or an expiry changes [users] by one
    ledger operation at most. *)
Lemma handle_ledger_change d e s :
  ledger_change (users s) (users (handle d e s)).
Proof.
  destruct e; cbn.
  - unfold api_signup.
    destruct (negb _ || negb _ || negb _); [constructor|].
    destruct (users s !! phone) eqn:Hu; [constructor|].
    saved d; now apply ledger_open.
  - unfold api_deposit.
    destruct (negb _ || negb _); [constructor|].
    destruct (users s !! phone) as [u|] eqn:Hu; [|constructor].
    destruct (isNaN _ || le _ _); [constructor|].
    saved d;
      match goal with |- context [push_tx ?t _] =>
        now apply (ledger_credit _ phone u t) end.
  - unfold api_withdraw.
    destruct (negb _ || negb _); [constructor|].
    destruct (users s !! phone) as [u|] eqn:Hu; [|constructor].
    destruct (isNaN _ || le _ _); [constructor|].
    destruct (gt _ _); [constructor|].
    saved d;
      match goal with |- context [push_tx ?t _] =>
        now apply (ledger_debit _ phone u t) end.
  - unfold api_payment_create.
    destruct (negb _ || negb _ || negb _); [constructor|].
    destruct (users s !! phone) as [u|] eqn:Hu; [|constructor].
    destruct (isNaN _ || lt _ _); [constructor|].
    saved d; constructor.
  - unfold api_payment_cancel.
    destruct (payments s !! id); [|constructor].
    destruct (objects s !! n); [|constructor].
    destruct (p_status p); try constructor.
    saved d; constructor.
  - unfold settlement_callback.
    destruct (timers s !! k) as [t|]; [|constructor].
    destruct ok; rewrite saveAll_users; cbn; [|constructor].
    rewrite alter_alt.
    destruct (users s !! t_user t) as [u|] eqn:Hu; [|constructor].
    match goal with |- context [push_tx ?x _] =>
      now apply (ledger_credit _ (t_user t) u x) end.
Qed.

(** A ledger operation on balances that are neither NaN nor [-0] keeps
    every balance equal to the sum of its history. *)
Lemma ledger_change_balanced us us' :
  ledger_change us us' →
  (∀ phone u, us !! phone = Some u → or_zero (u_balance u) = u_balance u) →
  (∀ phone u, us !! phone = Some u → balanced u) →
  ∀ phone u, us' !! phone = Some u → balanced u.
Proof.
  intros [|p u' Hp Hb Ht|p u t Hp Hk|p u t Hp Hk] Hst Hbal phone v;
    [apply Hbal| | |].
  all: rewrite lookup_insert; case_decide; [intros [= <-]|apply Hbal].
  all: unfold balanced in *; cbn.
  - now rewrite Hb, Ht.
  - rewrite ledger_sum_snoc, (Hst p u Hp), <- (Hbal p u Hp).
    unfold signed. now destruct (tx_kind t).
  - rewrite ledger_sum_snoc, (Hst p u Hp), <- (Hbal p u Hp), sub_add_opp.
    unfold signed. now rewrite Hk.
Qed.

(** Along a run in which no balance becomes NaN or [-0], every balance is
    the sum of its history. *)
Lemma ledger_run es : ∀ s,
  all_balanced s →
  (∀ n, steady (run (take n es) s)) →
  all_balanced (run es s).
Proof.
  induction es as [|e es IH]; intros s Hb Hst; [exact Hb|].
  cbn. apply IH.
  - exact (ledger_change_balanced _ _ (handle_ledger_change _ e s)
             (Hst 0%nat) Hb).
  - intros n. exact (Hst (S n)).
Qed.

(** C2 (the code departs from the claim).  Three requests that all succeed:
    deposit "Infinity", withdraw "Infinity", withdraw 5.  The balance is
    Infinity, then NaN, then [-5]: it is negative, and differs from the sum
    of the recorded amounts, which is NaN. *)
Theorem balance_goes_negative :
  let r1 :=
    api_deposit Writable "0700" (JString infinity) "n1"
      "2024-01-01T09:00:00.000Z" ann in
  let r2 :=
    api_withdraw Writable "0700" (JString infinity) "n2"
      "2024-01-01T09:01:00.000Z" r1.1 in
  let r3 :=
    api_withdraw Writable "0700" (JNumber (of_Z 5)) "n3"
      "2024-01-01T09:02:00.000Z" r2.1 in
  r1.2 = OkBalance infinity ∧
  r2.2 = OkBalance S754_nan ∧
  r3.2 = OkBalance (of_Z (-5)) ∧
  balance_of r3.1 "0700" = Some (of_Z (-5)) ∧
  negative (of_Z (-5)) = true ∧
  ledger_sum <$> (u_txs <$> users r3.1 !! "0700") = Some S754_nan.
Proof. vm_compute. repeat split. Qed.

(** ** A write that fails *)


Ltac handler_cases :=
  repeat match goal with
    | |- context [if ?b then _ else _] => destruct b eqn:?
    | |- context [match ?o with Some _ => _ | None => _ end] =>
        destruct o eqn:?
    | |- context [match p_status ?p with _ => _ end] =>
        destruct (p_status p) eqn:?
    end.


(** ** Amounts that are refused *)

(** C4, the claim as stated fails: a deposit of the number 0 into an existing
    account is refused as "missing", not as "invalid amount". *)
Lemma deposit_zero_is_missing :
  users ann !! "0700" = Some ann_user ∧
  positive_finite (Number (JNumber c0)) = false ∧
  api_deposit Writable "0700" (JNumber c0) "n1" "2024-01-01T09:00:00.000Z"
    ann = (ann, Error 400 "missing") ∧
  Error 400 "missing" ≠ Error 400 "invalid amount".
Proof. repeat split; try (vm_compute; reflexivity). discriminate. Qed.

(** C4 as amended.  For an existing account and an amount whose Number is
    not +Infinity, a deposit is refused exactly when that Number is not
    positive and finite: as "missing" when the amount is falsy (absent, null,
    false, the empty string, 0, NaN), as "invalid amount" when it is truthy;
    the refused deposit leaves the server as it was. *)
Theorem deposit_amount_check (d : disk) (s : server) (phone : string)
    (u : user) (amount : jsval) (nid now : string) :
  present phone = true →
  users s !! phone = Some u →
  Number amount ≠ infinity →
  let r := api_deposit d phone amount nid now s in
  (positive_finite (Number amount) = false ↔ rejected r.2 = true) ∧
  (r = (s, Error 400 "invalid amount") ↔
     ToBoolean amount = true ∧ positive_finite (Number amount) = false) ∧
  (r = (s, Error 400 "missing") ↔ ToBoolean amount = false) ∧
  (rejected r.2 = true → r.1 = s).
Proof.
  intros Hp Hu Hinf. cbv zeta. unfold api_deposit. rewrite Hp, Hu. cbn.
  destruct (ToBoolean amount) eqn:Ht; cbn.
  - rewrite (amount_test_finite _ Hinf).
    destruct (positive_finite (Number amount)) eqn:Hpos; cbn.
    + destruct (saveAll d _) as [s2 []]; cbn;
        repeat split; intros; try discriminate; intuition discriminate.
    + repeat split; intros; try discriminate; auto.
  - pose proof (falsy_not_positive _ Ht) as Hf.
    rewrite (amount_test_finite _ Hinf) in Hf.
    apply negb_true_iff in Hf. rewrite Hf.
    repeat split; intros; try discriminate; auto; intuition discriminate.
Qed.

Lemma deposit_amount_check_witness :
  let r :=
    api_deposit Writable "0700" (JString (of_Z (-5))) "n1"
      "2024-01-01T09:00:00.000Z" ann in
  (positive_finite (of_Z (-5)) = false ↔ rejected r.2 = true) ∧
  (r = (ann, Error 400 "invalid amount") ↔
     true = true ∧ positive_finite (of_Z (-5)) = false) ∧
  (r = (ann, Error 400 "missing") ↔ true = false) ∧
  (rejected r.2 = true → r.1 = ann).
Proof.
  apply (deposit_amount_check Writable ann "0700" ann_user
           (JString (of_Z (-5))) "n1" "2024-01-01T09:00:00.000Z").
  - reflexivity.
  - vm_compute. reflexivity.
  - discriminate.
Defined.

(** A payment that was just created is found under its id. *)
Lemma payment_of_new (s s' : server) (id : string) (p : payment) :
  payments s' = <[id := length (objects s)]> (payments s) →
  objects s' = objects s ++ [p] →
  payment_of s' id = Some p.
Proof.
  intros Hp Ho. unfold payment_of. rewrite Hp, Ho, lookup_insert_eq. cbn.
  now apply list_lookup_middle.
Qed.

(** C5, the claim as stated fails: a payment of the number 0, which is below
    the minimum, is refused as "missing", not as "invalid amount". *)
Lemma create_zero_is_missing :
  users ann !! "0700" = Some ann_user ∧
  lt c0 c250 = true ∧
  api_payment_create Writable "0700" (JNumber c0) "till" "pay1"
    "2024-01-01T09:00:00.000Z" ann = (ann, Error 400 "missing") ∧
  Error 400 "missing" ≠ Error 400 "invalid amount, minimum 250".
Proof. repeat split; try (vm_compute; reflexivity). discriminate. Qed.

(** C5 as amended.  For an existing account and a destination that is
    given, create-payment is refused with "invalid amount, minimum 250"
    exactly when the amount is truthy and its Number is NaN or below 250, and
    with "missing" exactly when the amount is falsy (absent, null, false, the
    empty string, 0, NaN); any other amount is accepted and the answer names
    a new payment in status PENDING.  So 249.99 is refused as an invalid
    amount and 250.00 is accepted. *)
Theorem create_amount_check (d : disk) (s : server) (phone payTo : string)
    (u : user) (amount : jsval) (id now : string) :
  present phone = true →
  present payTo = true →
  users s !! phone = Some u →
  let a := Number amount in
  let create v := api_payment_create d phone v payTo id now s in
  let accept v := api_payment_create Writable phone v payTo id now s in
  (create amount = (s, Error 400 "invalid amount, minimum 250") ↔
     ToBoolean amount = true ∧ (isNaN a = true ∨ lt a c250 = true)) ∧
  (create amount = (s, Error 400 "missing") ↔ ToBoolean amount = false) ∧
  (ToBoolean amount = true → isNaN a = false → lt a c250 = false →
     (accept amount).2 = OkPayment id ∧
     payment_of (accept amount).1 id =
       Some {| p_id := id; p_phone := phone; p_payTo := payTo;
               p_amount := a; p_status := PENDING; p_createdAt := now |}) ∧
  create (JNumber (of_cents 24999)) =
    (s, Error 400 "invalid amount, minimum 250") ∧
  (accept (JNumber (of_cents 25000))).2 = OkPayment id ∧
  status_of (accept (JNumber (of_cents 25000))).1 id = Some PENDING.
Proof.
  intros Hp Ht Hu. cbv zeta. unfold api_payment_create, status_of.
  rewrite Hp, Ht, Hu. cbn [negb orb].
  change (ToBoolean (JNumber (of_cents 25000))) with true.
  change (Number (JNumber (of_cents 25000))) with c250.
  change (ToBoolean (JNumber (of_cents 24999))) with true.
  change (isNaN (Number (JNumber (of_cents 24999)))
          || lt (Number (JNumber (of_cents 24999))) c250) with true.
  change (isNaN c250 || lt c250 c250) with false.
  cbn [negb orb saveAll fst snd].
  repeat apply conj.
  all: try reflexivity.
  all: try (erewrite payment_of_new; [ | reflexivity | reflexivity ];
            reflexivity).
  all: destruct (ToBoolean amount), (isNaN (Number amount)),
         (lt (Number amount) c250), d; cbn.
  all: try (intros; discriminate).
  all: try (intros; reflexivity).
  all: try (intros [? [?|?]]; discriminate).
  all: try (intros; split; auto; fail).
  all: intros; split; [reflexivity | eapply payment_of_new; reflexivity].
Qed.

Lemma create_amount_check_witness :
  api_payment_create Writable "0700" (JNumber (of_cents 24999)) "till" "pay1"
    "2024-01-01T09:00:00.000Z" ann
  = (ann, Error 400 "invalid amount, minimum 250") ∧
  (api_payment_create Writable "0700" (JNumber (of_cents 25000)) "till" "pay1"
     "2024-01-01T09:00:00.000Z" ann).2 = OkPayment "pay1".
Proof.
  pose proof (create_amount_check Writable ann "0700" "till" ann_user
                (JNumber (of_cents 24999)) "pay1" "2024-01-01T09:00:00.000Z")
    as H.
  cbv zeta in H.
  destruct H as (_ & _ & _ & H1 & H2 & _).
  - reflexivity.
  - reflexivity.
  - vm_compute. reflexivity.
  - split; assumption.
Defined.

(** ** Withdrawals *)

Lemma gt_nonneg_ToBoolean (v : jsval) (b : number) :
  le c0 b = true → gt (Number v) b = true → ToBoolean v = true.
Proof.
  intros Hb Hv. destruct v as [| |[]|n| |n|n]; cbn in *; try reflexivity;
    try (apply (gt_nonneg_truthy _ _ Hb Hv));
    destruct b as [[]|[]| |[] mb eb]; discriminate.
Qed.

(** C6, the claim as stated fails: on the account whose balance is [-5], the
    amount [-1] is above the balance, and the withdrawal is refused with
    "invalid amount", not with "insufficient balance". *)
Lemma withdraw_above_negative_balance :
  balance_of ann_overdrawn "0700" = Some (of_Z (-5)) ∧
  gt (Number (JNumber (of_Z (-1)))) (of_Z (-5)) = true ∧
  api_withdraw Writable "0700" (JNumber (of_Z (-1))) "n4"
    "2024-01-01T09:03:00.000Z" ann_overdrawn
  = (ann_overdrawn, Error 400 "invalid amount") ∧
  Error 400 "invalid amount" ≠ Error 400 "insufficient balance".
Proof. repeat split; try (vm_compute; reflexivity). discriminate. Qed.

(** C6 as amended.  For an existing account, whatever its balance, a
    withdrawal of an amount above the balance is refused with "insufficient
    balance" and leaves the server, so the balance and the history, as it
    was, when the amount is positive; and the amount is positive whenever
    the balance is not negative. *)
Theorem withdraw_insufficient (d : disk) (s : server) (phone : string)
    (u : user) (amount : jsval) (nid now : string) :
  present phone = true →
  users s !! phone = Some u →
  gt (Number amount) (u_balance u) = true →
  gt (Number amount) c0 = true ∨ le c0 (u_balance u) = true →
  api_withdraw d phone amount nid now s
  = (s, Error 400 "insufficient balance").
Proof.
  intros Hp Hu Ha Hpos. unfold api_withdraw.
  assert (ToBoolean amount = true ∧
          isNaN (Number amount) || le (Number amount) c0 = false) as [Ht Hv].
  { destruct Hpos as [Hpos|Hb].
    - split; [exact (gt_nonneg_ToBoolean _ c0 eq_refl Hpos)
             | exact (gt_nonneg_amount _ c0 eq_refl Hpos)].
    - split; [exact (gt_nonneg_ToBoolean _ _ Hb Ha)
             | exact (gt_nonneg_amount _ _ Hb Ha)]. }
  rewrite Hp, Ht, Hu. cbn. now rewrite Hv, Ha.
Qed.

Lemma withdraw_insufficient_witness :
  gt (Number (JNumber (of_cents 1))) (of_Z (-5)) = true ∧
  gt (Number (JNumber (of_cents 1))) c0 = true ∧
  api_withdraw Writable "0700" (JNumber (of_cents 1)) "n4"
    "2024-01-01T09:03:00.000Z" ann_overdrawn
  = (ann_overdrawn, Error 400 "insufficient balance").
Proof.
  split; [reflexivity|]. split; [reflexivity|].
  eapply (withdraw_insufficient Writable ann_overdrawn "0700").
  - reflexivity.
  - vm_compute. reflexivity.
  - reflexivity.
  - left. reflexivity.
Defined.

(** C9 (the code departs from the claim).  After a deposit of "Infinity" the
    balance is Infinity, a positive balance; a withdrawal of that amount
    succeeds and the new balance is NaN, not 0. *)
Theorem withdraw_infinite_balance :
  let r :=
    api_withdraw Writable "0700" (JString infinity) "n2"
      "2024-01-01T09:01:00.000Z" ann_infinite in
  balance_of ann_infinite "0700" = Some infinity ∧
  gt infinity c0 = true ∧
  Number (JString infinity) = infinity ∧
  r.2 = OkBalance S754_nan ∧
  balance_of r.1 "0700" = Some S754_nan.
Proof. vm_compute. repeat split. Qed.

(** X26.  For an existing account with a positive finite balance, a withdrawal
    of exactly the balance succeeds: the answer and the account carry the
    balance [+0], and the history gains the withdrawal. *)
Theorem withdraw_whole_balance (s : server) (phone : string) (u : user)
    (amount : jsval) (nid now : string) :
  present phone = true →
  users s !! phone = Some u →
  positive_finite (u_balance u) = true →
  Number amount = u_balance u →
  let r := api_withdraw Writable phone amount nid now s in
  r.2 = OkBalance zero ∧
  balance_of r.1 phone = Some zero ∧
  u_txs <$> users r.1 !! phone =
    Some (u_txs u ++
          [{| tx_id := "tx_" +:+ nid; tx_kind := withdraw;
              tx_amount := u_balance u; tx_createdAt := now;
              tx_meta := Note "Manual withdrawal" |}]).
Proof.
  intros Hp Hu Hb Ha. cbv zeta. unfold api_withdraw, balance_of.
  rewrite Hp, (positive_finite_truthy amount), Hu by now rewrite Ha.
  rewrite Ha. cbn.
  destruct (u_balance u) as [[]|[]| |[] m e] eqn:Eb; try discriminate Hb.
  rewrite gt_irrefl. cbn. rewrite sub_diag, lookup_insert_eq. auto.
Qed.

Lemma withdraw_whole_balance_witness :
  let s :=
    (api_deposit Writable "0700" (JNumber (of_cents 12345)) "n1"
       "2024-01-01T09:00:00.000Z" ann).1 in
  (api_withdraw Writable "0700" (JNumber (of_cents 12345)) "n2"
     "2024-01-01T09:05:00.000Z" s).2 = OkBalance zero.
Proof.
  cbv zeta.
  eapply (withdraw_whole_balance _ "0700" _ (JNumber (of_cents 12345))).
  - reflexivity.
  - vm_compute. reflexivity.
  - reflexivity.
  - reflexivity.
Defined.

(** ** Cancellation *)

(** C8.  For an existing payment, cancel answers ok exactly when the status
    is PENDING; the payment is then CANCELLED, in memory and in the payments
    file.  In any other status, CANCELLED included, cancel is refused with
    "cannot cancel" and the server is as before. *)
Theorem cancel_only_pending (s : server) (id : string) (l : nat)
    (p : payment) :
  payments s !! id = Some l →
  objects s !! l = Some p →
  let r := api_payment_cancel Writable id s in
  (r.2 = Ok ↔ p_status p = PENDING) ∧
  (p_status p = PENDING →
     payment_of r.1 id = Some (set_status CANCELLED p) ∧
     PAYMENTS_FILE r.1 !! id = Some (set_status CANCELLED p)) ∧
  (p_status p ≠ PENDING →
     ∀ d, api_payment_cancel d id s = (s, Error 400 "cannot cancel")).
Proof.
  intros Hl Hp. cbv zeta. unfold api_payment_cancel. rewrite Hl, Hp.
  destruct (p_status p) eqn:Hs; cbn; repeat apply conj;
    try discriminate; try reflexivity; try congruence.
  intros _. unfold payment_of, payments_json. cbn.
  rewrite lookup_omap, Hl. cbn. now rewrite list_lookup_alter_eq, Hp.
Qed.

Lemma cancel_only_pending_witness :
  let s :=
    (api_payment_create Writable "0700" (JNumber c250) "till" "pay1"
       "2024-01-01T09:00:00.000Z" ann).1 in
  let r1 := api_payment_cancel Writable "pay1" s in
  let r2 := api_payment_cancel Writable "pay1" r1.1 in
  (r1.2 = Ok ∧ status_of r1.1 "pay1" = Some CANCELLED) ∧
  r2 = (r1.1, Error 400 "cannot cancel").
Proof.
  cbv zeta. split.
  - edestruct (cancel_only_pending
                 (api_payment_create Writable "0700" (JNumber c250) "till"
                    "pay1" "2024-01-01T09:00:00.000Z" ann).1 "pay1" 0)
      as (H1 & H2 & _).
    + vm_compute. reflexivity.
    + vm_compute. reflexivity.
    + cbv zeta in H1, H2. split.
      * apply H1. reflexivity.
      * unfold status_of. now rewrite (proj1 (H2 eq_refl)).
  - vm_compute. reflexivity.
Defined.

(** ** Creating a payment *)

(** C10.  For an existing account and an amount of at least 250, whatever
    the balance, create-payment is accepted; [users], so every balance and
    history, is as before, and [payments] gains the id, bound to a new object
    in status PENDING.  The answer and the payments are the same when the
    account holds any other balance [b]. *)
Theorem create_payment_frame (s : server) (phone payTo : string) (u : user)
    (amount : jsval) (id now : string) :
  present phone = true →
  present payTo = true →
  users s !! phone = Some u →
  le c250 (Number amount) = true →
  let create s := api_payment_create Writable phone amount payTo id now s in
  let p :=
    {| p_id := id; p_phone := phone; p_payTo := payTo;
       p_amount := Number amount; p_status := PENDING;
       p_createdAt := now |} in
  (create s).2 = OkPayment id ∧
  users (create s).1 = users s ∧
  payments (create s).1 = <[id := length (objects s)]> (payments s) ∧
  objects (create s).1 = objects s ++ [p] ∧
  payment_of (create s).1 id = Some p ∧
  ∀ b : number,
    let s' := set_users (<[phone := set_balance b u]> (users s)) s in
    (create s').2 = (create s).2 ∧
    users (create s').1 = users s' ∧
    payments (create s').1 = payments (create s).1 ∧
    objects (create s').1 = objects (create s).1.
Proof.
  intros Hp Ht Hu Ha. cbv zeta. unfold api_payment_create.
  rewrite Hp, Ht, Hu, (ge_minimum_truthy _ Ha), (ge_minimum_amount _ Ha).
  cbn. repeat apply conj; try reflexivity.
  - eapply payment_of_new; reflexivity.
  - intros b. rewrite lookup_insert_eq. cbn. auto.
Qed.

Lemma create_payment_frame_witness :
  let r :=
    api_payment_create Writable "0700" (JNumber (of_Z 1000)) "till" "pay1"
      "2024-01-01T09:00:00.000Z" ann in
  balance_of ann "0700" = Some c0 ∧
  r.2 = OkPayment "pay1" ∧
  users r.1 = users ann.
Proof.
  cbv zeta.
  destruct (create_payment_frame ann "0700" "till" ann_user
              (JNumber (of_Z 1000)) "pay1" "2024-01-01T09:00:00.000Z")
    as (H1 & H2 & _).
  - reflexivity.
  - reflexivity.
  - vm_compute. reflexivity.
  - reflexivity.
  - cbv zeta in H1, H2.
    split; [vm_compute; reflexivity | split; assumption].
Defined.

(** ** The settlement credit *)

(** C7, the claim as stated fails: for the principal 258.15, half-up rounding
    of 258.15 * 1.10 = 283.965 to two decimals gives 283.97, and the callback
    credits 283.96. *)
Lemma settlement_credit_258_15 :
  let s :=
    run [CreatePayment "0700" (JNumber (of_cents 25815)) "till" "pay1"
           "2024-01-01T09:00:00.000Z";
         Expire 0 true "n1" "2024-01-01T09:00:10.000Z"] ann in
  round2_bonus_cents 25815 = 28397 ∧
  credited (of_cents 25815) = of_cents 28396 ∧
  status_of s "pay1" = Some SUCCESS ∧
  balance_of s "0700" = Some (of_cents 28396) ∧
  of_cents 28396 ≠ of_cents 28397.
Proof. repeat split; try (vm_compute; reflexivity). discriminate. Qed.

(** Nor is the credit the half-up rounding of the binary64 product: for the
    principal 250.35 the product [a * 1.10] is below 275.385, and the
    callback credits 275.39. *)
Lemma settlement_credit_250_35 :
  mul (of_cents 25035) c1_10 = S754_finite false 4844624153841500 (-44) ∧
  4844624153841500 * 1000 < 275385 * 2 ^ 44 ∧
  credited (of_cents 25035) = of_cents 27539.
Proof. repeat split. Qed.

(** C7 as amended.  When the callback of a payment of principal [a] runs
    with a successful draw, the credited amount is
    [Math.round((a * 1.10) * 100) / 100] computed on binary64 Numbers, the
    integer rounding being half-up; the payment becomes SUCCESS, the balance
    becomes [(balance || 0) + credited], and the history gains an invest
    transaction of that amount whose meta holds the principal [a] and the
    bonus [credited - a].  For the principal 1000 the credit is 1100, with
    principal 1000 and bonus 100. *)
Theorem settlement_credit (s : server) (k : nat) (t : timer) (u : user)
    (nid now : string) :
  timers s !! k = Some t →
  users s !! t_user t = Some u →
  let a := t_a t in
  let c := div (Math_round (mul (mul a c1_10) c100)) c100 in
  let r := settlement_callback Writable k true nid now s in
  r.2 = true ∧
  objects r.1 !! t_payment t = set_status SUCCESS <$> objects s !! t_payment t ∧
  balance_of r.1 (t_user t) = Some (add (or_zero (u_balance u)) c) ∧
  u_txs <$> users r.1 !! t_user t =
    Some (u_txs u ++
          [{| tx_id := "tx_" +:+ nid; tx_kind := invest; tx_amount := c;
              tx_createdAt := now; tx_meta := Invest a (sub c a) |}]) ∧
  credited (of_Z 1000) = of_Z 1100 ∧
  sub (credited (of_Z 1000)) (of_Z 1000) = of_Z 100.
Proof.
  intros Hk Hu. cbv zeta. unfold settlement_callback, balance_of.
  rewrite Hk. cbn. rewrite list_lookup_alter_eq, lookup_alter_eq, Hu. cbn.
  repeat apply conj; reflexivity.
Qed.

Lemma settlement_credit_witness :
  let s :=
    (api_payment_create Writable "0700" (JNumber (of_Z 1000)) "till" "pay1"
       "2024-01-01T09:00:00.000Z" ann).1 in
  let r :=
    settlement_callback Writable 0 true "n1" "2024-01-01T09:00:10.000Z" s in
  balance_of r.1 "0700" = Some (of_Z 1100) ∧
  u_txs <$> users r.1 !! "0700" =
    Some [{| tx_id := "tx_n1"; tx_kind := invest; tx_amount := of_Z 1100;
             tx_createdAt := "2024-01-01T09:00:10.000Z";
             tx_meta := Invest (of_Z 1000) (of_Z 100) |}].
Proof.
  cbv zeta.
  edestruct (settlement_credit
               (api_payment_create Writable "0700" (JNumber (of_Z 1000))
                  "till" "pay1" "2024-01-01T09:00:00.000Z" ann).1 0)
    as (_ & _ & H1 & H2 & _).
  - vm_compute. reflexivity.
  - vm_compute. reflexivity.
  - cbv zeta in H1, H2. split.
    + etransitivity; [exact H1 | vm_compute; reflexivity].
    + etransitivity; [exact H2 | vm_compute; reflexivity].
Defined.

(** * The other routes, and what every route keeps *)

Ltac routes :=
  unfold api_signup, api_deposit, api_withdraw, api_payment_create,
    api_payment_cancel, settlement_callback, api_login, api_user_picture,
    api_logout.

Section Routes.

Variable pbkdf2Sync : string → string → string.

(** ** Accounts *)

Lemma same_identity_refl u : same_identity u u.
Proof. now repeat split. Qed.

Lemma same_identity_trans u v w :
  same_identity u v → same_identity v w → same_identity u w.
Proof. unfold same_identity. intuition congruence. Qed.

(** One ledger operation keeps every account, what signup fixed of it, and
    its history, to which it adds at the end. *)
Lemma ledger_change_account us us' k u :
  ledger_change us us' →
  us !! k = Some u →
  ∃ u', us' !! k = Some u' ∧ same_identity u u' ∧
        u_picture u' = u_picture u ∧ u_txs u `prefix_of` u_txs u'.
Proof.
  intros [|p v Hp _ _|p v t Hp _|p v t Hp _] Hk.
  - exists u. eauto using same_identity_refl.
  - exists u. rewrite lookup_insert_ne by congruence.
    eauto using same_identity_refl.
  - destruct (decide (p = k)) as [->|Hne].
    + rewrite lookup_insert_eq. assert (v = u) as -> by congruence.
      eexists. split; [reflexivity|]. cbn.
      repeat split. now apply prefix_app_r.
    + exists u. rewrite lookup_insert_ne by done.
      eauto using same_identity_refl.
  - destruct (decide (p = k)) as [->|Hne].
    + rewrite lookup_insert_eq. assert (v = u) as -> by congruence.
      eexists. split; [reflexivity|]. cbn.
      repeat split. now apply prefix_app_r.
    + exists u. rewrite lookup_insert_ne by done.
      eauto using same_identity_refl.
Qed.

Lemma perform_account d a s k u :
  users s !! k = Some u →
  ∃ u', users (perform pbkdf2Sync d a s) !! k = Some u' ∧
        same_identity u u' ∧ u_txs u `prefix_of` u_txs u'.
Proof.
  intros Hk.
  assert (∃ u', users s !! k = Some u' ∧ same_identity u u' ∧
                u_txs u `prefix_of` u_txs u') as Hsame
    by (exists u; eauto using same_identity_refl).
  destruct a as [e|phone password token|phone|phone picture|phone]; cbn.
  - destruct (ledger_change_account _ _ k u (handle_ledger_change d e s) Hk)
      as (u' & ? & ? & _ & ?). eauto.
  - unfold api_login.
    destruct (negb _ || negb _); [exact Hsame|].
    destruct (users s !! phone); [|exact Hsame].
    destruct (negb _); exact Hsame.
  - exact Hsame.
  - unfold api_user_picture.
    destruct (negb _ || negb _); [exact Hsame|].
    destruct (users s !! phone) as [v|] eqn:Hv; [|exact Hsame].
    saved d.
    all: destruct (decide (phone = k)) as [->|Hne];
      [rewrite lookup_insert_eq; assert (v = u) as -> by congruence;
       eexists; split; [reflexivity|]; now repeat split
      |rewrite lookup_insert_ne by done; exact Hsame].
  - exact Hsame.
Qed.

Lemma play_account ds : ∀ s k u,
  users s !! k = Some u →
  ∃ u', users (play pbkdf2Sync ds s) !! k = Some u' ∧
        same_identity u u' ∧ u_txs u `prefix_of` u_txs u'.
Proof.
  induction ds as [|[d a] ds IH]; intros s k u Hk.
  - exists u. eauto using same_identity_refl.
  - destruct (perform_account d a s k u Hk) as (v & Hv & Hid & Hpre).
    destruct (IH _ k v Hv) as (w & Hw & Hid' & Hpre').
    exists w. cbn. split; [exact Hw|]. split.
    + eapply same_identity_trans; eauto.
    + etransitivity; eauto.
Qed.

(** X1.  No run of requests and expiries, whatever the disk does, removes an
    account or changes its phone, name, salt, password hash or creation
    date. *)
Theorem credentials_never_change ds s phone u :
  users s !! phone = Some u →
  ∃ u', users (play pbkdf2Sync ds s) !! phone = Some u' ∧ same_identity u u'.
Proof.
  intros Hu. destruct (play_account ds s phone u Hu) as (u' & ? & ? & _).
  eauto.
Qed.

(** X2.  The history of an account is append-only: after any run it starts
    with the history it had before. *)
Theorem history_append_only ds s phone u :
  users s !! phone = Some u →
  ∃ u', users (play pbkdf2Sync ds s) !! phone = Some u' ∧
        u_txs u `prefix_of` u_txs u'.
Proof.
  intros Hu. destruct (play_account ds s phone u Hu) as (u' & ? & _ & ?).
  eauto.
Qed.

Lemma keyed_perform d a s : keyed s → keyed (perform pbkdf2Sync d a s).
Proof.
  intros Hk phone u'.
  destruct (users s !! phone) as [u|] eqn:Hu.
  - destruct (perform_account d a s phone u Hu) as (v & -> & (Hp & _) & _).
    intros [= <-]. rewrite Hp. eauto.
  - revert Hu.
    destruct a as [[]|ph password tok|ph|ph picture|ph], d;
      cbn; routes; handler_cases; cbn; try congruence.
    all: rewrite ?lookup_alter, ?lookup_insert; case_decide; subst;
      try congruence.
    all: try now intros _ [= <-].
    all: intros Hn; rewrite Hn; discriminate.
Qed.

(** X3.  In every server reached from an empty data directory, an account is
    stored under its own phone: the key of [users] and the [phone] field
    agree. *)
Theorem accounts_stored_under_phone ds phone u :
  users (play pbkdf2Sync ds start) !! phone = Some u → u_phone u = phone.
Proof.
  assert (∀ s, keyed s → keyed (play pbkdf2Sync ds s)) as H.
  { induction ds as [|[d a] ds IH]; intros s Hs; [exact Hs|].
    cbn. apply IH. now apply keyed_perform. }
  apply H. intros p v Hv. cbn in Hv. now rewrite lookup_empty in Hv.
Qed.

(** ** The object store *)

Lemma wf_perform d a s : wf s → wf (perform pbkdf2Sync d a s).
Proof.
  intros Hwf.
  destruct a as [e|phone password token|phone|phone picture|phone]; cbn.
  - now apply wf_handle.
  - routes; handler_cases; exact Hwf.
  - exact Hwf.
  - unfold api_user_picture.
    destruct (negb _ || negb _); [exact Hwf|].
    destruct (users s !! phone) as [v|]; [|exact Hwf].
    pose proof (wf_saveAll d _
                  (wf_insert_user s phone (set_picture picture v) Hwf)) as H.
    destruct (saveAll d _) as [s2 []]; exact H.
  - exact Hwf.
Qed.

Lemma wf_play ds : ∀ s, wf s → wf (play pbkdf2Sync ds s).
Proof.
  induction ds as [|[d a] ds IH]; intros s Hwf; [exact Hwf|].
  cbn. apply IH. now apply wf_perform.
Qed.

(** X5.  In every server reached from an empty data directory by actions
    whose keys are not names of [Object.prototype] members, whatever the disk
    does: every id of [payments] names a payment object, every pending timer
    holds a payment object with the timer's amount and user, and that user
    has an account. *)
Theorem reachable_well_formed ds :
  plain_run ds = true → wf (play pbkdf2Sync ds start).
Proof. intros _. apply wf_play, wf_start. Qed.

(** ** Sessions *)

(** The session table changes in two places only: signup and login add the
    token of an account that exists, logout filters. *)
Lemma perform_sessions d a s :
  let s' := perform pbkdf2Sync d a s in
  sessions s' = sessions s ∨
  (∃ token phone,
     sessions s' = <[token := phone]> (sessions s) ∧
     is_Some (users s' !! phone)) ∨
  (∃ phone, sessions s' = filter (λ tp, tp.2 ≠ phone) (sessions s)).
Proof.
  cbv zeta.
  destruct a as [[]|phone password tok|phone|phone picture|phone], d;
    cbn; routes; handler_cases; cbn; auto.
  all: try (right; right; eauto; fail).
  all: right; left; eexists _, _; (split; [reflexivity|]);
    rewrite ?lookup_insert_eq; eauto.
Qed.

Lemma sessions_known_perform d a s :
  sessions_known s → sessions_known (perform pbkdf2Sync d a s).
Proof.
  intros Hs token p.
  assert (∀ t, sessions s !! t = Some p →
               is_Some (users (perform pbkdf2Sync d a s) !! p)) as Hold.
  { intros t Ht. destruct (Hs _ _ Ht) as [u Hu].
    destruct (perform_account d a s p u Hu) as (u' & -> & _). eauto. }
  destruct (perform_sessions d a s) as [->|[(tok & ph & -> & Hph)|[ph ->]]].
  - apply Hold.
  - rewrite lookup_insert. case_decide; [now intros [= <-] | apply Hold].
  - intros Hx. apply map_lookup_filter_Some in Hx as [Hx _]. eauto.
Qed.

(** X6.  In every server reached from an empty data directory, every session
    token is the token of an account that exists. *)
Theorem sessions_belong_to_accounts ds token phone :
  sessions (play pbkdf2Sync ds start) !! token = Some phone →
  is_Some (users (play pbkdf2Sync ds start) !! phone).
Proof.
  assert (∀ s, sessions_known s → sessions_known (play pbkdf2Sync ds s))
    as H.
  { induction ds as [|[d a] ds IH]; intros s Hs; [exact Hs|].
    cbn. apply IH. now apply sessions_known_perform. }
  apply H. intros t p Hx. cbn in Hx. now rewrite lookup_empty in Hx.
Qed.

(** ** Payments and timers *)

(** How the payment objects change: not at all, by one more object at the
    end, or in one status; outside an expiry, the status that changes is
    PENDING. *)
Lemma perform_objects d a s :
  let s' := perform pbkdf2Sync d a s in
  objects s' = objects s ∨
  (∃ p, objects s' = objects s ++ [p]) ∨
  (∃ st l, objects s' = alter (set_status st) l (objects s) ∧
     (is_expiry a = true ∨
      ∃ p, objects s !! l = Some p ∧ p_status p = PENDING)).
Proof.
  cbv zeta.
  destruct a as [[]|phone password tok|phone|phone picture|phone], d;
    cbn; routes; handler_cases; cbn; auto.
  all: try (right; left; eauto; fail).
  all: right; right; eexists _, _; split; [reflexivity|]; eauto.
Qed.

Lemma perform_timers d a s :
  let s' := perform pbkdf2Sync d a s in
  timers s' = timers s ∨
  (∃ t, timers s' = timers s ++ [t] ∧ t_payment t = length (objects s)) ∨
  (∃ k, is_Some (timers s !! k) ∧ timers s' = delete k (timers s)).
Proof.
  cbv zeta.
  destruct a as [[]|phone password tok|phone|phone picture|phone], d;
    cbn; routes; handler_cases; cbn; auto.
  all: try (right; left; eexists; split; reflexivity).
  all: right; right; eauto.
Qed.

Lemma one_timer_each_perform d a s :
  wf s → one_timer_each s → one_timer_each (perform pbkdf2Sync d a s).
Proof.
  unfold one_timer_each. intros [_ Hwf] Hnd.
  destruct (perform_timers d a s) as [->|[(t & -> & Ht)|(k & _ & ->)]].
  - exact Hnd.
  - rewrite fmap_app. apply NoDup_app. split; [exact Hnd|].
    split; [|apply NoDup_singleton].
    intros l Hin Hin'. apply list_elem_of_singleton in Hin'. subst l.
    apply list_elem_of_fmap in Hin as (t' & Heq & Hin).
    rewrite Forall_forall in Hwf.
    destruct (Hwf t' Hin) as [(p & Hp & _) _].
    apply lookup_lt_Some in Hp. lia.
  - rewrite list_fmap_delete.
    exact (sublist_NoDup _ _ Hnd (sublist_delete _ k)).
Qed.

Lemma one_timer_each_play ds : ∀ s,
  wf s → one_timer_each s → one_timer_each (play pbkdf2Sync ds s).
Proof.
  induction ds as [|[d a] ds IH]; intros s Hwf Hnd; [exact Hnd|].
  cbn. apply IH; [now apply wf_perform | now apply one_timer_each_perform].
Qed.

Lemma timers_callback d k ok nid now s t :
  timers s !! k = Some t →
  timers (settlement_callback d k ok nid now s).1 = delete k (timers s).
Proof.
  intros Hk. unfold settlement_callback. rewrite Hk.
  destruct ok, d; reflexivity.
Qed.

(** X7.  A payment is settled at most once: in every server reached from an
    empty data directory, once the timer of a payment object has expired no
    pending timer holds that object. *)
Theorem settled_at_most_once ds d k ok nid now t :
  let s := play pbkdf2Sync ds start in
  timers s !! k = Some t →
  ∀ t', t' ∈ timers (settlement_callback d k ok nid now s).1 →
        t_payment t' ≠ t_payment t.
Proof.
  cbv zeta. intros Hk t' Hin Heq.
  rewrite (timers_callback _ _ _ _ _ _ _ Hk) in Hin.
  pose proof (one_timer_each_play ds start wf_start NoDup_nil_2) as Hnd.
  unfold one_timer_each in Hnd.
  rewrite <- (take_drop_middle _ _ _ Hk) in Hnd.
  rewrite delete_take_drop in Hin.
  rewrite fmap_app, fmap_cons in Hnd.
  apply NoDup_app in Hnd as (_ & Hdis & Hnd).
  apply NoDup_cons in Hnd as [Hnot _].
  apply elem_of_app in Hin as [Hin|Hin].
  - apply (Hdis (t_payment t)).
    + rewrite <- Heq. now apply list_elem_of_fmap_2.
    + left.
  - apply Hnot. rewrite <- Heq. now apply list_elem_of_fmap_2.
Qed.

(** X8.  Only the expiry of a timer takes a payment out of a final status:
    every request, on any disk, leaves a SUCCESS, FAILED or CANCELLED payment
    object exactly as it is. *)
Theorem terminal_kept_without_expiry d a s l p :
  is_expiry a = false →
  objects s !! l = Some p →
  terminal (p_status p) = true →
  objects (perform pbkdf2Sync d a s) !! l = Some p.
Proof.
  intros Ha Hl Ht.
  destruct (perform_objects d a s)
    as [->|[[q ->]|(st & l' & -> & [He|(q & Hq & Hs)])]].
  - exact Hl.
  - now apply lookup_app_l_Some.
  - congruence.
  - destruct (decide (l' = l)) as [->|Hne].
    + assert (q = p) as -> by congruence. rewrite Hs in Ht. discriminate.
    + now rewrite list_lookup_alter_ne.
Qed.

Lemma perform_payment_kept d a s l p :
  objects s !! l = Some p →
  ∃ p', objects (perform pbkdf2Sync d a s) !! l = Some p' ∧
        p' = set_status (p_status p') p.
Proof.
  intros Hl.
  destruct (perform_objects d a s) as [->|[[q ->]|(st & l' & -> & _)]].
  - exists p. split; [exact Hl|]. now destruct p.
  - exists p. split; [now apply lookup_app_l_Some|]. now destruct p.
  - destruct (decide (l' = l)) as [->|Hne].
    + rewrite list_lookup_alter_eq, Hl. cbn. eauto.
    + rewrite list_lookup_alter_ne by done. exists p. split; [exact Hl|].
      now destruct p.
Qed.

(** X9.  A payment object is never removed from the store, and nothing of it
    but its status ever changes: after any run, on any disk, it is the
    payment it was, with the status it has now. *)
Theorem payment_fields_immutable ds : ∀ s l p,
  objects s !! l = Some p →
  ∃ p', objects (play pbkdf2Sync ds s) !! l = Some p' ∧
        p' = set_status (p_status p') p.
Proof.
  induction ds as [|[d a] ds IH]; intros s l p Hl.
  - exists p. split; [exact Hl|]. now destruct p.
  - destruct (perform_payment_kept d a s l p Hl) as (q & Hq & Eq).
    destruct (IH _ l q Hq) as (r & Hr & Er).
    exists r. split; [exact Hr|]. rewrite Er at 1. rewrite Eq. reflexivity.
Qed.

(** X20.  In every server reached from an empty data directory by actions
    whose keys are not names of [Object.prototype] members, and for an id
    that is not such a name: the status route answers "not found" exactly
    when [payments] does not hold the id; otherwise it answers the status of
    the payment, with the note exactly when the status is SUCCESS. *)
Theorem status_not_found_iff ds id :
  plain_run ds = true →
  inherited id = false →
  let s := play pbkdf2Sync ds start in
  (api_payment_status id s = Error 404 "not found" ↔
   payments s !! id = None) ∧
  (∀ l, payments s !! id = Some l →
     ∃ p, objects s !! l = Some p ∧
          api_payment_status id s
          = Status (p_status p)
              (match p_status p with
               | SUCCESS => Some "Payment received and investment credited."
               | _ => None
               end)).
Proof.
  intros _ _. cbv zeta. destruct (wf_play ds start wf_start) as [Hwf _].
  unfold api_payment_status, payment_of.
  destruct (payments _ !! id) as [l|] eqn:Hl; cbn.
  - destruct (Hwf id l Hl) as [p Hp]. rewrite Hp. split.
    + split; discriminate.
    + intros l' [= <-]. eauto.
  - split; [tauto | discriminate].
Qed.

(** X21.  The callback changes one account at most, the one of its timer: a
    failed draw changes no account, and a successful draw no other
    account. *)
Theorem callback_touches_one_account d k ok nid now s phone :
  (ok = false ∨ ∀ t, timers s !! k = Some t → t_user t ≠ phone) →
  users (settlement_callback d k ok nid now s).1 !! phone
  = users s !! phone.
Proof.
  intros H. unfold settlement_callback.
  destruct (timers s !! k) as [t|] eqn:Hk; [|reflexivity].
  destruct ok; rewrite saveAll_users; cbn; [|reflexivity].
  destruct H as [H|H]; [discriminate|].
  rewrite lookup_alter_ne; [reflexivity | now apply H].
Qed.

(** X22.  In every server reached from an empty data directory by actions
    whose keys are not names of [Object.prototype] members, a timer that
    expires with a successful draw marks its payment SUCCESS and credits the
    amount computed from that payment's amount to the account of that
    payment's phone. *)
Theorem settlement_pays_the_payment ds k t nid now :
  plain_run ds = true →
  let s := play pbkdf2Sync ds start in
  timers s !! k = Some t →
  ∃ p u,
    objects s !! t_payment t = Some p ∧
    users s !! p_phone p = Some u ∧
    let r := settlement_callback Writable k true nid now s in
    objects r.1 !! t_payment t = Some (set_status SUCCESS p) ∧
    balance_of r.1 (p_phone p)
    = Some (add (or_zero (u_balance u)) (credited (p_amount p))).
Proof.
  intros _. cbv zeta. intros Hk.
  destruct (wf_play ds start wf_start) as [_ Hwf].
  rewrite Forall_forall in Hwf.
  destruct (Hwf t (list_elem_of_lookup_2 _ _ _ Hk))
    as [(p & Hp & Ha & Hph) [u Hu]].
  exists p, u. rewrite Hph. repeat split; try assumption.
  - now apply settlement_ignores_status with (t := t).
  - unfold settlement_callback, balance_of. rewrite Hk. cbn.
    now rewrite lookup_alter_eq, Hu, Ha.
Qed.

(** X24.  Cancel never touches an account, the sessions or the ids, and it
    does not clear the payment's timer: the pending timers are the same
    after it. *)
Theorem cancel_keeps_timer_and_ledger d id s :
  let r := api_payment_cancel d id s in
  users r.1 = users s ∧ timers r.1 = timers s ∧
  payments r.1 = payments s ∧ sessions r.1 = sessions s ∧
  length (objects r.1) = length (objects s).
Proof.
  cbv zeta. routes; handler_cases; destruct d; cbn;
    rewrite ?length_alter; auto.
Qed.

(** ** Passwords, login and logout *)

(** X10.  [verifyPassword] accepts a password with the salt and the hash
    that [pbkdf2Hash] made for it.  The hash is that of the password with the
    salt that is returned; the salt is the given one when one is given and is
    not empty, and the random one when none is given or the given one is
    empty. *)
Theorem verify_accepts_hashed password salt random :
  let sh := pbkdf2Hash pbkdf2Sync password salt random in
  verifyPassword pbkdf2Sync password sh.1 sh.2 = true ∧
  sh.2 = pbkdf2Sync password sh.1 ∧
  (∀ given, salt = Some given → present given = true → sh.1 = given) ∧
  (salt = None → sh.1 = random) ∧
  (salt = Some "" → sh.1 = random).
Proof.
  cbv zeta. unfold pbkdf2Hash, verifyPassword. cbn.
  split; [apply String.eqb_refl|]. split; [reflexivity|].
  repeat split.
  - intros given -> Hg. now rewrite Hg.
  - now intros ->.
  - now intros ->.
Qed.

(** X11.  Login grants a token exactly when phone and password are given,
    the account exists and the password hashes, with the account's salt, to
    the stored hash.  A granted login adds the token to the sessions and
    changes nothing else; a refused one changes nothing. *)
Theorem login_spec phone password token s :
  let r := api_login pbkdf2Sync phone password token s in
  (granted r.2 = true ↔
     present phone = true ∧ present password = true ∧
     ∃ u, users s !! phone = Some u ∧
          pbkdf2Sync password (u_salt u) = u_passHash u) ∧
  (granted r.2 = true →
     r.1 = set_sessions (<[token := phone]> (sessions s)) s) ∧
  (granted r.2 = false → r.1 = s).
Proof.
  cbv zeta. unfold api_login, verifyPassword.
  destruct (present phone), (present password); cbn;
    try (repeat split; try discriminate; intros (? & ? & _); discriminate).
  destruct (users s !! phone) as [u|]; cbn.
  - destruct (String.eqb_spec (pbkdf2Sync password (u_salt u)) (u_passHash u))
      as [He|Hne]; cbn.
    + repeat split; try discriminate; eauto.
    + repeat split; try discriminate.
      intros (_ & _ & v & [= <-] & Hv). contradiction.
  - repeat split; try discriminate.
    intros (_ & _ & v & Hv & _). discriminate.
Qed.




(** X14.  Logout always answers ok.  It deletes every session of the given
    phone and no other: afterwards no token leads to that phone, and every
    other session is as before; accounts, payments and timers are
    untouched. *)
Theorem logout_spec phone s :
  let r := api_logout phone s in
  r.2 = Done ∧
  (∀ token p, sessions r.1 !! token = Some p ↔
              sessions s !! token = Some p ∧ p ≠ phone) ∧
  (∀ token, sessions r.1 !! token ≠ Some phone) ∧
  memory r.1 = memory s ∧ timers r.1 = timers s.
Proof.
  cbv zeta. unfold api_logout. cbn.
  split; [reflexivity|]. split; [|split; [|split; reflexivity]].
  - intros token p. now rewrite map_lookup_filter_Some.
  - intros token Hx. apply map_lookup_filter_Some in Hx as [_ Hx].
    now apply Hx.
Qed.



(** ** What the money routes read and write *)

(** X16.  No money route reads or writes the sessions: deposit, withdraw,
    create-payment, cancel, status, the account view and the settlement
    callback answer and act the same whatever the session table holds, and
    leave it as it is. *)
Theorem money_routes_ignore_sessions ss d s phone amount payTo id nid now
    k ok :
  let s' := set_sessions ss s in
  let lift (r : server * response) := (set_sessions ss r.1, r.2) in
  api_deposit d phone amount nid now s'
  = lift (api_deposit d phone amount nid now s) ∧
  api_withdraw d phone amount nid now s'
  = lift (api_withdraw d phone amount nid now s) ∧
  api_payment_create d phone amount payTo id now s'
  = lift (api_payment_create d phone amount payTo id now s) ∧
  api_payment_cancel d id s' = lift (api_payment_cancel d id s) ∧
  api_payment_status id s' = api_payment_status id s ∧
  api_user phone s' = api_user phone s ∧
  (settlement_callback d k ok nid now s').1
  = set_sessions ss (settlement_callback d k ok nid now s).1.
Proof.
  cbv zeta. repeat apply conj.
  all: routes; unfold api_payment_status, api_user, payment_of; cbn.
  all: destruct d; handler_cases; reflexivity.
Qed.

(** X23.  Deposit and withdraw change the account they name and nothing
    else: every other account, the payments, the payment objects, the timers
    and the sessions are as before, whatever the amount and the disk. *)
Theorem deposit_withdraw_frame d phone amount nid now s :
  let r1 := api_deposit d phone amount nid now s in
  let r2 := api_withdraw d phone amount nid now s in
  (∀ other, other ≠ phone →
     users r1.1 !! other = users s !! other ∧
     users r2.1 !! other = users s !! other) ∧
  (payments r1.1, objects r1.1, timers r1.1, sessions r1.1)
  = (payments s, objects s, timers s, sessions s) ∧
  (payments r2.1, objects r2.1, timers r2.1, sessions r2.1)
  = (payments s, objects s, timers s, sessions s).
Proof.
  cbv zeta. repeat apply conj.
  - intros other Hne. split; routes; handler_cases; destruct d; cbn;
      now rewrite ?lookup_insert_ne.
  - routes; handler_cases; destruct d; reflexivity.
  - routes; handler_cases; destruct d; reflexivity.
Qed.

(** ** The account view *)

(** X17.  An uploaded picture is in the account view afterwards, whether or
    not the write succeeded, with the name, balance and history unchanged;
    the views of the other accounts, the payments, the timers and the
    sessions are as before. *)
Theorem picture_then_view d phone picture s u :
  present phone = true → present picture = true →
  users s !! phone = Some u →
  let r := api_user_picture d phone picture s in
  api_user phone r.1
  = UserView (u_name u) (u_phone u) (u_balance u) (u_txs u) (Some picture) ∧
  (∀ other, other ≠ phone → api_user other r.1 = api_user other s) ∧
  payments r.1 = payments s ∧ objects r.1 = objects s ∧
  timers r.1 = timers s ∧ sessions r.1 = sessions s.
Proof.
  intros Hp Hc Hu. cbv zeta. unfold api_user_picture, api_user.
  rewrite Hp, Hc, Hu. destruct d; cbn; rewrite lookup_insert_eq.
  all: repeat split; intros other Hne; now rewrite lookup_insert_ne.
Qed.

(** X18.  A deposit of a positive finite amount into an existing account
    answers the old balance (or 0 when it is falsy) plus the amount, on a
    working disk; on any disk the account view then shows that balance and
    the old history followed by the deposit. *)
Theorem deposit_then_view d phone amount nid now s u :
  present phone = true →
  users s !! phone = Some u →
  positive_finite (Number amount) = true →
  let b := add (or_zero (u_balance u)) (Number amount) in
  let r := api_deposit d phone amount nid now s in
  (d = Writable → r.2 = OkBalance b) ∧
  api_user phone r.1
  = UserView (u_name u) (u_phone u) b
      (u_txs u ++
       [{| tx_id := "tx_" +:+ nid; tx_kind := deposit;
           tx_amount := Number amount; tx_createdAt := now;
           tx_meta := Note "Manual deposit" |}])
      (u_picture u).
Proof.
  intros Hp Hu Ha. cbv zeta. unfold api_deposit, api_user.
  rewrite Hp, (positive_finite_truthy _ Ha), Hu. cbn.
  assert (isNaN (Number amount) || le (Number amount) c0 = false) as ->
    by (apply amount_test_false; now left).
  destruct d; cbn; rewrite lookup_insert_eq; split;
    try reflexivity; discriminate.
Qed.

(** X19.  A withdrawal of a positive finite amount that is not above the
    balance answers the balance (or 0 when it is falsy) minus the amount, on
    a working disk; on any disk the account view then shows that balance and
    the old history followed by the withdrawal. *)
Theorem withdraw_then_view d phone amount nid now s u :
  present phone = true →
  users s !! phone = Some u →
  positive_finite (Number amount) = true →
  gt (Number amount) (u_balance u) = false →
  let b := sub (or_zero (u_balance u)) (Number amount) in
  let r := api_withdraw d phone amount nid now s in
  (d = Writable → r.2 = OkBalance b) ∧
  api_user phone r.1
  = UserView (u_name u) (u_phone u) b
      (u_txs u ++
       [{| tx_id := "tx_" +:+ nid; tx_kind := withdraw;
           tx_amount := Number amount; tx_createdAt := now;
           tx_meta := Note "Manual withdrawal" |}])
      (u_picture u).
Proof.
  intros Hp Hu Ha Hb. cbv zeta. unfold api_withdraw, api_user.
  rewrite Hp, (positive_finite_truthy _ Ha), Hu. cbn.
  assert (isNaN (Number amount) || le (Number amount) c0 = false) as ->
    by (apply amount_test_false; now left).
  rewrite Hb.
  destruct d; cbn; rewrite lookup_insert_eq; split;
    try reflexivity; discriminate.
Qed.


(** ** The balance and the history, on every route *)

Lemma perform_balanced d a s :
  steady s → all_balanced s → all_balanced (perform pbkdf2Sync d a s).
Proof.
  intros Hst Hb.
  destruct a as [e|phone password tok|phone|phone picture|phone]; cbn.
  - exact (ledger_change_balanced _ _ (handle_ledger_change d e s) Hst Hb).
  - routes; handler_cases; exact Hb.
  - exact Hb.
  - unfold api_user_picture.
    destruct (negb _ || negb _); [exact Hb|].
    destruct (users s !! phone) as [v|] eqn:Hv; [|exact Hb].
    intros k u. saved d.
    all: rewrite lookup_insert; case_decide; [intros [= <-]|apply Hb].
    all: exact (Hb _ _ Hv).
  - exact Hb.
Qed.

(** X25.  Along a run from an empty data directory, on any disk, in which
    no balance becomes NaN or [-0], the balance of every account is the sum
    of the signed amounts of its history, added in order from 0. *)
Theorem balance_is_ledger_sum ds :
  (∀ n, steady (play pbkdf2Sync (take n ds) start)) →
  all_balanced (play pbkdf2Sync ds start).
Proof.
  assert (∀ s, all_balanced s →
               (∀ n, steady (play pbkdf2Sync (take n ds) s)) →
               all_balanced (play pbkdf2Sync ds s)) as H.
  { induction ds as [|[d a] ds IH]; intros s Hb Hst; [exact Hb|].
    cbn. apply IH.
    - apply perform_balanced; [exact (Hst 0%nat) | exact Hb].
    - intros n. exact (Hst (S n)). }
  apply H. intros phone u Hu. cbn in Hu. now rewrite lookup_empty in Hu.
Qed.

End Routes.

Lemma steady_list s :
  Forall (λ pu, or_zero (u_balance pu.2) = u_balance pu.2)
    (map_to_list (users s)) →
  steady s.
Proof.
  intros H phone u Hu. rewrite Forall_forall in H.
  apply (H (phone, u)). now apply elem_of_map_to_list.
Qed.

(** ** Instances *)

Lemma credentials_never_change_witness :
  ∃ u, users ann_server !! "0700" = Some u ∧
  ∃ u', users (play toy_pbkdf2 ann_next ann_server) !! "0700" = Some u' ∧
        same_identity u u'.
Proof.
  eexists. split; [vm_compute; reflexivity|].
  apply (credentials_never_change toy_pbkdf2 ann_next ann_server "0700").
  vm_compute. reflexivity.
Defined.

Lemma history_append_only_witness :
  ∃ u, users ann_server !! "0700" = Some u ∧
  ∃ u', users (play toy_pbkdf2 ann_next ann_server) !! "0700" = Some u' ∧
        u_txs u `prefix_of` u_txs u'.
Proof.
  eexists. split; [vm_compute; reflexivity|].
  apply (history_append_only toy_pbkdf2 ann_next ann_server "0700").
  vm_compute. reflexivity.
Defined.

Lemma accounts_stored_under_phone_witness :
  ∃ u, users (play toy_pbkdf2 ann_run start) !! "0700" = Some u ∧
       u_phone u = "0700".
Proof.
  eexists. split; [vm_compute; reflexivity|].
  apply (accounts_stored_under_phone toy_pbkdf2 ann_run "0700").
  vm_compute. reflexivity.
Defined.

Lemma sessions_belong_to_accounts_witness :
  sessions (play toy_pbkdf2 ann_run start) !! "tok2" = Some "0700" ∧
  is_Some (users (play toy_pbkdf2 ann_run start) !! "0700").
Proof.
  split; [vm_compute; reflexivity|].
  apply (sessions_belong_to_accounts toy_pbkdf2 ann_run "tok2" "0700").
  vm_compute. reflexivity.
Defined.

Lemma settled_at_most_once_witness :
  ∃ t, timers (play toy_pbkdf2 ann_run start) !! 0%nat = Some t ∧
  ∀ t',
    t' ∈ timers (settlement_callback Writable 0 true "n3"
                   "2024-01-01T09:00:10.000Z"
                   (play toy_pbkdf2 ann_run start)).1 →
    t_payment t' ≠ t_payment t.
Proof.
  eexists. split; [vm_compute; reflexivity|].
  apply (settled_at_most_once toy_pbkdf2 ann_run Writable 0).
  vm_compute. reflexivity.
Defined.

Lemma terminal_kept_without_expiry_witness :
  ∃ p, is_expiry (Core (CancelPayment "pay1")) = false ∧
       objects ann_server !! 0%nat = Some p ∧
       terminal (p_status p) = true ∧
       objects (perform toy_pbkdf2 Writable (Core (CancelPayment "pay1"))
                  ann_server) !! 0%nat = Some p.
Proof.
  eexists. split; [reflexivity|]. split; [vm_compute; reflexivity|].
  split; [reflexivity|].
  apply (terminal_kept_without_expiry toy_pbkdf2 Writable
           (Core (CancelPayment "pay1")) ann_server 0).
  - reflexivity.
  - vm_compute. reflexivity.
  - reflexivity.
Defined.

Lemma payment_fields_immutable_witness :
  ∃ p, objects ann_server !! 0%nat = Some p ∧
  ∃ p', objects (play toy_pbkdf2 ann_next ann_server) !! 0%nat = Some p' ∧
        p' = set_status (p_status p') p.
Proof.
  eexists. split; [vm_compute; reflexivity|].
  apply (payment_fields_immutable toy_pbkdf2 ann_next ann_server 0).
  vm_compute. reflexivity.
Defined.




Lemma picture_then_view_witness :
  users ann !! "0700" = Some ann_user ∧
  api_user "0700"
    (api_user_picture UsersFails "0700" "data:image/png;base64,AAAA" ann).1
  = UserView "Ann" "0700" c0 [] (Some "data:image/png;base64,AAAA").
Proof.
  split; [vm_compute; reflexivity|].
  destruct (picture_then_view UsersFails "0700" "data:image/png;base64,AAAA"
              ann ann_user) as (H & _).
  - reflexivity.
  - reflexivity.
  - vm_compute. reflexivity.
  - exact H.
Defined.

Lemma deposit_then_view_witness :
  users ann !! "0700" = Some ann_user ∧
  positive_finite (Number (JString (of_cents 12345))) = true ∧
  api_user "0700"
    (api_deposit PaymentsFails "0700" (JString (of_cents 12345)) "n1"
       "2024-01-01T09:00:00.000Z" ann).1
  = UserView "Ann" "0700" (add (or_zero c0) (of_cents 12345))
      [{| tx_id := "tx_n1"; tx_kind := deposit;
          tx_amount := of_cents 12345;
          tx_createdAt := "2024-01-01T09:00:00.000Z";
          tx_meta := Note "Manual deposit" |}]
      None.
Proof.
  split; [vm_compute; reflexivity|]. split; [reflexivity|].
  destruct (deposit_then_view PaymentsFails "0700" (JString (of_cents 12345))
              "n1" "2024-01-01T09:00:00.000Z" ann ann_user) as (_ & H).
  - reflexivity.
  - vm_compute. reflexivity.
  - reflexivity.
  - exact H.
Defined.

Lemma withdraw_then_view_witness :
  ∃ u, users ann_server !! "0700" = Some u ∧
  gt (of_Z 30) (u_balance u) = false ∧
  (api_withdraw Writable "0700" (JNumber (of_Z 30)) "n2"
     "2024-01-01T09:00:03.000Z" ann_server).2
  = OkBalance (sub (or_zero (u_balance u)) (of_Z 30)).
Proof.
  eexists. split; [vm_compute; reflexivity|]. split; [reflexivity|].
  eapply (withdraw_then_view Writable "0700" (JNumber (of_Z 30)) "n2"
            "2024-01-01T09:00:03.000Z" ann_server).
  - reflexivity.
  - vm_compute. reflexivity.
  - reflexivity.
  - reflexivity.
  - reflexivity.
Defined.

Lemma callback_touches_one_account_witness :
  (false = false ∨
   ∀ t, timers ann_server !! 1%nat = Some t → t_user t ≠ "0700") ∧
  users (settlement_callback Writable 1 false "n3"
           "2024-01-01T09:00:10.000Z" ann_server).1 !! "0700"
  = users ann_server !! "0700".
Proof.
  split; [now left|].
  apply (callback_touches_one_account Writable 1 false "n3"
           "2024-01-01T09:00:10.000Z" ann_server "0700").
  now left.
Defined.

Lemma settlement_pays_the_payment_witness :
  plain_run ann_run = true ∧
  ∃ t, timers (play toy_pbkdf2 ann_run start) !! 1%nat = Some t ∧
  ∃ p u,
    objects (play toy_pbkdf2 ann_run start) !! t_payment t = Some p ∧
    users (play toy_pbkdf2 ann_run start) !! p_phone p = Some u ∧
    balance_of
      (settlement_callback Writable 1 true "n3" "2024-01-01T09:00:10.000Z"
         (play toy_pbkdf2 ann_run start)).1 (p_phone p)
    = Some (add (or_zero (u_balance u)) (credited (p_amount p))).
Proof.
  split; [reflexivity|].
  eexists. split; [vm_compute; reflexivity|].
  edestruct (settlement_pays_the_payment toy_pbkdf2 ann_run 1)
    as (p & u & Hp & Hu & _ & Hb).
  - reflexivity.
  - vm_compute. reflexivity.
  - exists p, u. split; [exact Hp|]. split; [exact Hu | exact Hb].
Defined.

Lemma balance_is_ledger_sum_witness :
  (∀ n, steady (play toy_pbkdf2 (take n ann_run) start)) ∧
  all_balanced (play toy_pbkdf2 ann_run start).
Proof.
  assert (∀ n, steady (play toy_pbkdf2 (take n ann_run) start)) as H.
  { intros n. apply steady_list.
    do 8 (destruct n as [|n]; [vm_compute; repeat constructor|]).
    vm_compute. repeat constructor. }
  split; [exact H|].
  apply (balance_is_ledger_sum toy_pbkdf2 ann_run H).
Defined.


Lemma reachable_well_formed_witness :
  plain_run ann_run = true ∧ wf (play toy_pbkdf2 ann_run start).
Proof.
  split; [reflexivity|].
  apply (reachable_well_formed toy_pbkdf2 ann_run). reflexivity.
Defined.

Lemma status_not_found_iff_witness :
  plain_run ann_run = true ∧
  inherited "pay9" = false ∧
  payments (play toy_pbkdf2 ann_run start) !! "pay9" = None ∧
  api_payment_status "pay9" (play toy_pbkdf2 ann_run start)
  = Error 404 "not found".
Proof.
  split; [reflexivity|]. split; [reflexivity|].
  split; [vm_compute; reflexivity|].
  destruct (status_not_found_iff toy_pbkdf2 ann_run "pay9") as [[_ H] _].
  - reflexivity.
  - reflexivity.
  - apply H. vm_compute. reflexivity.
Defined.
